(** * ARP template Run Gateway: a shallow embedding and its properties

    Sources embedded here:
    - [arp_template_run_gateway/run_coordinator_client.py]
      (class [RunCoordinatorGatewayClient], the outgoing adapter);
    - [arp_template_run_gateway/gateway.py] (class [RunGateway]);
    - [arp_template_run_gateway/utils.py] ([now], [normalize_base_url]).

    Conventions.
    - A Python [str] is a Rocq [string] that holds the UTF-8 encoding of
      its code points (see [Unicode] below); an ASCII text stands for itself.
    - A call that may raise returns an [outcome]: [Returns v] or [Raises e].
    - [now()] and [uuid.uuid4().hex] read the outside world; the value each
      evaluation yields is an explicit argument of the operation that
      performs it.
    - Pydantic objects live in an object store ([objects]); a reference is
      the index of the object, so that sharing and identity are visible. *)

From Stdlib Require Import ZArith NArith String Ascii List Lia DecimalString.
From stdpp Require Import base option list strings gmap fin_maps.

Set Warnings "-register-all".
Open Scope Z_scope.

(** ** Structured data ([Any], [dict], JSON) *)

Inductive json : Type :=
| JNull
| JBool (b : bool)
| JInt (z : Z)
| JString (s : string)
| JArray (items : list json)
| JObject (members : list (string * json)).

(** ** Exceptions of the standard client and server packages *)

(** [arp_standard_client.errors.ArpApiError]: the recognised API-level
    error; [status_code] is [int | None]. *)
Record ArpApiError : Type := {
  api_code : string;
  api_message : string;
  api_status_code : option Z;
  api_details : option json;
}.

(** [arp_standard_server.ArpServerError]: the gateway's standard error. *)
Record ArpServerError : Type := {
  code : string;
  message : string;
  status_code : Z;
  details : option json;
}.

(** Instances of [Exception].  [OtherException text] is any exception that
    is neither of the two classes above; [text] is what [str] gives on it.
    What a call raises here is always such an instance: a [BaseException]
    outside [Exception] (the cancellation of the awaiting task, say) is
    caught by no handler of the repository and is no outcome of this
    model. *)
Inductive Exception : Type :=
| ApiError (e : ArpApiError)
| ServerError (e : ArpServerError)
| OtherException (text : string).

Inductive outcome (T : Type) : Type :=
| Returns (v : T)
| Raises (exc : Exception).
Arguments Returns {T} v.
Arguments Raises {T} exc.

(** Python's [x or d] on [int | None]: [None] and [0] are both falsy. *)
Definition int_or (x : option Z) (d : Z) : Z :=
  match x with
  | Some n => if Z.eqb n 0 then d else n
  | None => d
  end.

(** Truthiness of a [str | None]: [None] and the empty string are falsy.
    [truthy x] is [x] when it is truthy. *)
Definition truthy (x : option string) : option string :=
  match x with
  | Some EmptyString => None
  | Some s => Some s
  | None => None
  end.

(** Python's [x or d] with [x : str | None] and [d : str]. *)
Definition str_or (x : option string) (d : string) : string :=
  match truthy x with
  | Some s => s
  | None => d
  end.

(** ** The standard model ([arp_standard_model]) *)

(** [datetime], as produced by [datetime.now(timezone.utc)]: an aware
    value in UTC.  The fields are within the ranges of Python's [datetime]
    (year 1..9999, month 1..12, ..., microsecond 0..999999). *)
Record datetime : Type := {
  year : N; month : N; day : N;
  hour : N; minute : N; second : N; microsecond : N;
}.

Inductive Status : Type := ok | degraded | down.

Inductive RunState : Type := running | succeeded | failed | canceled.

Inductive detail : Type :=
| DString (s : string)
| DStatus (s : Status).

Record Check : Type := {
  check_name : string;
  check_status : Status;
  check_message : option string;
  check_details : option (list (string * detail));
}.

(** [Health]: [checks] is optional and defaults to [None]. *)
Record Health : Type := {
  health_status : Status;
  health_time : datetime;
  health_checks : option (list Check);
}.

Record Run : Type := {
  run_id : string;
  state : RunState;
  root_node_run_id : string;
  run_context : option json;
  started_at : datetime;
  ended_at : option datetime;
  extensions : option json;
}.

Record RunStartRequest : Type := {
  req_run_id : option string;
  req_root_node_type_ref : json;
  req_input : json;
  req_run_context : option json;
  req_extensions : option json;
}.

Record VersionInfo : Type := {
  service_name : string;
  service_version : string;
  supported_api_versions : list string;
}.

#[global] Instance Status_eq_dec : EqDecision Status.
Proof. solve_decision. Defined.
#[global] Instance RunState_eq_dec : EqDecision RunState.
Proof. solve_decision. Defined.

(** ** The outgoing adapter ([run_coordinator_client.py]) *)

(** [arp_standard_client.run_coordinator.RunCoordinatorClient]: the remote
    coordinator as the adapter sees it.  Each method takes the request
    envelope (here: what the envelope carries) and returns or raises. *)
Record RunCoordinatorClient : Type := {
  client_cancel_run : string -> outcome Run;
  client_get_run : string -> outcome Run;
  client_health : unit -> outcome Health;
  client_start_run : RunStartRequest -> outcome Run;
  client_stream_run_events : string -> outcome string;
}.

(** What the two packages (which are not part of this repository) leave
    open: the text [str] yields on their exception classes, and the client
    that [RunCoordinatorClient(base_url=..., bearer_token=...)] builds. *)
Class Packages : Type := {
  str_ArpApiError : ArpApiError -> string;
  str_ArpServerError : ArpServerError -> string;
  new_RunCoordinatorClient : string -> option string -> RunCoordinatorClient;
}.

Definition str `{Packages} (exc : Exception) : string :=
  match exc with
  | ApiError e => str_ArpApiError e
  | ServerError e => str_ArpServerError e
  | OtherException text => text
  end.

Record RunCoordinatorGatewayClient : Type := {
  base_url : string;
  _client : RunCoordinatorClient;
}.

Module Adapter.
Section Adapter.
Context `{Packages}.

(** [RunCoordinatorGatewayClient(base_url=..., bearer_token=..., client=...)] *)
Definition __init__ (base_url : string) (bearer_token : option string)
    (client : option RunCoordinatorClient) : RunCoordinatorGatewayClient :=
  {| base_url := base_url;
     _client :=
       match client with
       | Some client => client
       | None => new_RunCoordinatorClient base_url bearer_token
       end |}.

(** [_call]: [asyncio.to_thread(fn, request)] yields what [fn(request)]
    yields; the two handlers map what it raises. *)
Definition _call {Q T : Type} (self : RunCoordinatorGatewayClient)
    (fn : Q -> outcome T) (request : Q) : outcome T :=
  match fn request with
  | Returns v => Returns v
  | Raises (ApiError exc) =>
      Raises (ServerError {|
        code := api_code exc;
        message := api_message exc;
        status_code := int_or (api_status_code exc) 502;
        details := api_details exc |})
  | Raises exc =>
      Raises (ServerError {|
        code := "run_coordinator_unavailable";
        message := "Run Coordinator request failed";
        status_code := 502;
        details := Some (JObject [
          ("run_coordinator_url", JString (base_url self));
          ("error", JString (str exc))]) |})
  end.

Definition cancel_run (self : RunCoordinatorGatewayClient) (run_id : string)
  : outcome Run :=
  _call self (client_cancel_run (_client self)) run_id.

Definition get_run (self : RunCoordinatorGatewayClient) (run_id : string)
  : outcome Run :=
  _call self (client_get_run (_client self)) run_id.

Definition health (self : RunCoordinatorGatewayClient) : outcome Health :=
  _call self (client_health (_client self)) tt.

Definition start_run (self : RunCoordinatorGatewayClient)
    (body : RunStartRequest) : outcome Run :=
  _call self (client_start_run (_client self)) body.

Definition stream_run_events (self : RunCoordinatorGatewayClient)
    (run_id : string) : outcome string :=
  _call self (client_stream_run_events (_client self)) run_id.
End Adapter.
End Adapter.

(** ** [utils.py] *)

Definition slash : ascii := "/"%char.

(** [url.rstrip("/")] *)
Fixpoint rstrip_slash (url : string) : string :=
  match url with
  | EmptyString => EmptyString
  | String c rest =>
      match rstrip_slash rest with
      | EmptyString => if Ascii.eqb c slash then EmptyString else String c EmptyString
      | rest' => String c rest'
      end
  end.

(** [s[:-3] if s.endswith("/v1") else s] *)
Fixpoint strip_v1 (s : string) : string :=
  match s with
  | EmptyString => EmptyString
  | String c rest =>
      if String.eqb s "/v1" then EmptyString else String c (strip_v1 rest)
  end.

Definition normalize_base_url (url : string) : string :=
  strip_v1 (rstrip_slash url).

(** [os.environ] is a map from names to values. *)
Definition run_coordinator_url_from_env (environ : gmap string string)
  : option string :=
  match truthy (environ !! "ARP_RUN_COORDINATOR_URL") with
  | None => None
  | Some url => Some (normalize_base_url url)
  end.

Definition run_coordinator_bearer_token_from_env (environ : gmap string string)
  : option string :=
  match truthy (environ !! "ARP_RUN_COORDINATOR_BEARER_TOKEN") with
  | None => None
  | Some token => Some token
  end.

(** [datetime.isoformat] on an aware UTC value:
    [YYYY-MM-DDTHH:MM:SS[.ffffff]+00:00]. *)
Definition digit_char (n : N) : ascii := ascii_of_N (48 + n mod 10).

(** The last [width] decimal digits of [n], in front of [acc]. *)
Fixpoint zero_padded (width : nat) (n : N) (acc : string) : string :=
  match width with
  | O => acc
  | S w => zero_padded w (n / 10) (String (digit_char n) acc)
  end.

Definition isoformat (t : datetime) : string :=
  zero_padded 4 (year t) ("-" +:+
  zero_padded 2 (month t) ("-" +:+
  zero_padded 2 (day t) ("T" +:+
  zero_padded 2 (hour t) (":" +:+
  zero_padded 2 (minute t) (":" +:+
  zero_padded 2 (second t)
    ((if N.eqb (microsecond t) 0 then EmptyString
      else "." +:+ zero_padded 6 (microsecond t) EmptyString)
     +:+ "+00:00")))))).

(** ** Python [str] as text

    A [str] is a sequence of code points, each below 0x110000.  The
    surrogate code points, 0xD800 to 0xDFFF, may stand in it like any
    other, alone or one after the other.  The [string] that stands for a
    [str] holds the UTF-8 encoding of its code points, a surrogate being
    encoded like every code point of its size. *)
Module Unicode.

Definition high_surrogate (n : N) : bool := N.leb 55296 n && N.leb n 56319.
Definition low_surrogate (n : N) : bool := N.leb 56320 n && N.leb n 57343.

(** The bytes of one code point *)
Definition utf8_char (n : N) : string :=
  if N.ltb n 128 then String (ascii_of_N n) EmptyString
  else if N.ltb n 2048 then
    String (ascii_of_N (192 + n / 64))
   (String (ascii_of_N (128 + n mod 64)) EmptyString)
  else if N.ltb n 65536 then
    String (ascii_of_N (224 + n / 4096))
   (String (ascii_of_N (128 + n / 64 mod 64))
   (String (ascii_of_N (128 + n mod 64)) EmptyString))
  else
    String (ascii_of_N (240 + n / 262144))
   (String (ascii_of_N (128 + n / 4096 mod 64))
   (String (ascii_of_N (128 + n / 64 mod 64))
   (String (ascii_of_N (128 + n mod 64)) EmptyString))).

(** The [string] that stands for the [str] with these code points *)
Fixpoint utf8 (cps : list N) : string :=
  match cps with
  | [] => EmptyString
  | n :: rest => utf8_char n +:+ utf8 rest
  end.

Definition continuation (c : ascii) : option N :=
  let b := N_of_ascii c in
  if N.leb 128 b && N.ltb b 192 then Some (b - 128)%N else None.

(** The code points a [string] stands for.  A byte that begins no
    encoding counts for itself. *)
Fixpoint code_points (s : string) : list N :=
  match s with
  | EmptyString => []
  | String c rest =>
      let b := N_of_ascii c in
      let single := b :: code_points rest in
      if N.ltb b 192 then single
      else if N.ltb b 224 then
        match rest with
        | String c1 rest1 =>
            match continuation c1 with
            | Some x1 => ((b - 192) * 64 + x1)%N :: code_points rest1
            | None => single
            end
        | EmptyString => single
        end
      else if N.ltb b 240 then
        match rest with
        | String c1 (String c2 rest2) =>
            match continuation c1, continuation c2 with
            | Some x1, Some x2 =>
                (((b - 224) * 64 + x1) * 64 + x2)%N :: code_points rest2
            | _, _ => single
            end
        | _ => single
        end
      else
        match rest with
        | String c1 (String c2 (String c3 rest3)) =>
            match continuation c1, continuation c2, continuation c3 with
            | Some x1, Some x2, Some x3 =>
                ((((b - 240) * 64 + x1) * 64 + x2) * 64 + x3)%N :: code_points rest3
            | _, _, _ => single
            end
        | _ => single
        end
  end.

(** The code points are those a [str] can hold. *)
Definition is_str (cps : list N) : bool :=
  forallb (fun n => N.ltb n 1114112) cps.

(** No high surrogate stands directly in front of a low one. *)
Fixpoint unpaired (cps : list N) : bool :=
  match cps with
  | [] => true
  | a :: rest =>
      match rest with
      | b :: _ => negb (high_surrogate a && low_surrogate b)
      | [] => true
      end && unpaired rest
  end.

End Unicode.

(** ** The [json] module of the Python library, as far as the gateway
    uses it: [json.dumps] with its defaults ([ensure_ascii=True],
    separators [", "] and [": "]) and [json.loads].  Floats are left out:
    [loads] gives [None] where [json.loads] raises, and also on a number
    with a fraction or an exponent. *)
Module Json.

Definition dquote : ascii := "034"%char.
Definition backslash : ascii := "\"%char.
Definition newline : ascii := "010"%char.

Definition hex_digit (n : N) : ascii :=
  if N.ltb n 10 then ascii_of_N (48 + n) else ascii_of_N (87 + n).

(** [format(n, "04x")] for [n < 0x10000] *)
Definition hex4 (n : N) : string :=
  String (hex_digit (n / 4096 mod 16))
 (String (hex_digit (n / 256 mod 16))
 (String (hex_digit (n / 16 mod 16))
 (String (hex_digit (n mod 16)) EmptyString))).

(** [ESCAPE_DCT] and the fallback of [py_encode_basestring_ascii] on
    one code point: the quote, the backslash and every code point outside
    [' '..'~'] are escaped, a code point of 0x10000 or more as a pair of
    surrogates ([(n >> 10) & 0x3ff] is [n / 1024 mod 1024], and [|] adds,
    the low bits of 0xd800 and 0xdc00 being clear). *)
Definition escape_char (n : N) : string :=
  if N.eqb n 34 then String backslash (String dquote EmptyString)
  else if N.eqb n 92 then String backslash (String backslash EmptyString)
  else if N.eqb n 8 then "\b"
  else if N.eqb n 12 then "\f"
  else if N.eqb n 10 then "\n"
  else if N.eqb n 13 then "\r"
  else if N.eqb n 9 then "\t"
  else if N.leb 32 n && N.leb n 126 then String (ascii_of_N n) EmptyString
  else if N.ltb n 65536 then "\u" +:+ hex4 n
  else
    let v := (n - 65536)%N in
    "\u" +:+ hex4 (55296 + v / 1024 mod 1024) +:+
    "\u" +:+ hex4 (56320 + v mod 1024).

Fixpoint escape_all (cps : list N) : string :=
  match cps with
  | [] => EmptyString
  | n :: rest => escape_char n +:+ escape_all rest
  end.

Definition escape (s : string) : string :=
  escape_all (Unicode.code_points s).

Definition encode_basestring_ascii (s : string) : string :=
  String dquote (escape s +:+ String dquote EmptyString).

(** [", ".join(parts)] *)
Fixpoint join (sep : string) (parts : list string) : string :=
  match parts with
  | [] => EmptyString
  | [p] => p
  | p :: rest => p +:+ sep +:+ join sep rest
  end.

(** [repr] of an [int] *)
Definition int_repr (z : Z) : string :=
  DecimalString.NilZero.string_of_int (Z.to_int z).

Fixpoint dumps (obj : json) : string :=
  match obj with
  | JNull => "null"
  | JBool true => "true"
  | JBool false => "false"
  | JInt z => int_repr z
  | JString s => encode_basestring_ascii s
  | JArray items => "[" +:+ join ", " (map dumps items) +:+ "]"
  | JObject members =>
      "{" +:+ join ", "
        (map (fun kv => encode_basestring_ascii (fst kv) +:+ ": " +:+ dumps (snd kv))
             members) +:+ "}"
  end.

(** *** Decoding *)

Definition is_ws (c : ascii) : bool :=
  Ascii.eqb c " " || Ascii.eqb c "009" || Ascii.eqb c "010" || Ascii.eqb c "013".

Fixpoint skip_ws (s : string) : string :=
  match s with
  | String c rest => if is_ws c then skip_ws rest else s
  | EmptyString => EmptyString
  end.

Definition hex_value (c : ascii) : option N :=
  let n := N_of_ascii c in
  if N.leb 48 n && N.leb n 57 then Some (n - 48)%N
  else if N.leb 97 n && N.leb n 102 then Some (n - 87)%N
  else if N.leb 65 n && N.leb n 70 then Some (n - 55)%N
  else None.

(** [_decode_uXXXX]: four hexadecimal digits *)
Definition decode_uXXXX (a b c d : ascii) : option N :=
  match hex_value a, hex_value b, hex_value c, hex_value d with
  | Some x, Some y, Some z, Some w => Some (((x * 16 + y) * 16 + z) * 16 + w)%N
  | _, _, _, _ => None
  end.

(** The [BACKSLASH] table of the decoder *)
Definition unescape (c : ascii) : option ascii :=
  if Ascii.eqb c dquote then Some dquote
  else if Ascii.eqb c backslash then Some backslash
  else if Ascii.eqb c "/" then Some "/"%char
  else if Ascii.eqb c "b" then Some "008"%char
  else if Ascii.eqb c "f" then Some "012"%char
  else if Ascii.eqb c "n" then Some "010"%char
  else if Ascii.eqb c "r" then Some "013"%char
  else if Ascii.eqb c "t" then Some "009"%char
  else None.

Definition prepend (text : string) (scanned : option (string * string))
  : option (string * string) :=
  match scanned with
  | Some (chunk, after) => Some (text +:+ chunk, after)
  | None => None
  end.

(** [py_scanstring] (strict), started after the opening quote: the text
    up to the closing quote, decoded, and what follows the quote.  A
    [\uXXXX] of a high surrogate that a [\uXXXX] of a low surrogate
    follows makes one code point with it. *)
Fixpoint scanstring (s : string) : option (string * string) :=
  match s with
  | EmptyString => None
  | String c rest =>
      if Ascii.eqb c dquote then Some (EmptyString, rest)
      else if Ascii.eqb c backslash then
        match rest with
        | String "u" (String h1 (String h2 (String h3 (String h4 rest')))) =>
            match decode_uXXXX h1 h2 h3 h4 with
            | Some uni =>
                let alone := prepend (Unicode.utf8_char uni) (scanstring rest') in
                if Unicode.high_surrogate uni then
                  match rest' with
                  | String "\" (String "u" escape2) =>
                      match escape2 with
                      | String g1 (String g2 (String g3 (String g4 rest''))) =>
                          match decode_uXXXX g1 g2 g3 g4 with
                          | Some uni2 =>
                              if Unicode.low_surrogate uni2 then
                                prepend
                                  (Unicode.utf8_char
                                     (65536 + ((uni - 55296) * 1024 + (uni2 - 56320))))
                                  (scanstring rest'')
                              else alone
                          | None => None
                          end
                      | _ => None
                      end
                  | _ => alone
                  end
                else alone
            | None => None
            end
        | String esc rest' =>
            match unescape esc with
            | Some char =>
                match scanstring rest' with
                | Some (chunk, after) => Some (String char chunk, after)
                | None => None
                end
            | None => None
            end
        | EmptyString => None
        end
      else if N.ltb (N_of_ascii c) 32 then None
      else
        match scanstring rest with
        | Some (chunk, after) => Some (String c chunk, after)
        | None => None
        end
  end.

(** Whether a text that follows the [\uXXXX] of a high surrogate goes on
    with it: it begins with the [\uXXXX] of a low surrogate, or with a
    [\u] that four hexadecimal digits do not follow. *)
Definition continues_pair (s : string) : bool :=
  match s with
  | String "\" (String "u" escape2) =>
      match escape2 with
      | String g1 (String g2 (String g3 (String g4 _))) =>
          match decode_uXXXX g1 g2 g3 g4 with
          | Some uni2 => Unicode.low_surrogate uni2
          | None => true
          end
      | _ => true
      end
  | _ => false
  end.

Definition is_digit (c : ascii) : bool :=
  N.leb 48 (N_of_ascii c) && N.leb (N_of_ascii c) 57.

Fixpoint scan_digits (s : string) (acc : Z) : Z * string :=
  match s with
  | String c rest =>
      if is_digit c then scan_digits rest (10 * acc + (Z.of_N (N_of_ascii c) - 48))
      else (acc, s)
  | EmptyString => (acc, EmptyString)
  end.

(** The integer part of [NUMBER_RE]: [0] or a non-zero digit and digits. *)
Definition scan_natural (s : string) : option (Z * string) :=
  match s with
  | String "0" rest => Some (0, rest)
  | String c rest => if is_digit c then Some (scan_digits s 0) else None
  | EmptyString => None
  end.

Definition scan_number (s : string) : option (json * string) :=
  let signed :=
    match s with
    | String "-" rest =>
        match scan_natural rest with
        | Some (n, after) => Some (- n, after)
        | None => None
        end
    | _ => scan_natural s
    end in
  match signed with
  | Some (n, String c after) =>
      if Ascii.eqb c "." || Ascii.eqb c "e" || Ascii.eqb c "E" then None
      else Some (JInt n, String c after)
  | Some (n, EmptyString) => Some (JInt n, EmptyString)
  | None => None
  end.

(** [dict(pairs)]: a key that comes again keeps its place and takes the
    new value. *)
Fixpoint dict_set (d : list (string * json)) (key : string) (value : json)
  : list (string * json) :=
  match d with
  | [] => [(key, value)]
  | (k, v) :: rest =>
      if String.eqb k key then (k, value) :: rest
      else (k, v) :: dict_set rest key value
  end.

Definition expect (prefix : string) (s : string) : option string :=
  if String.prefix prefix s
  then Some (String.substring (String.length prefix)
                              (String.length s - String.length prefix) s)
  else None.

Section Decoder.
(** [scan_once] for the values nested one level down *)
Variable scan_once : string -> option (json * string).

(** The loop of [JSONObject], entered after the opening quote of a key *)
Fixpoint JSONObject_loop (fuel : nat) (s : string) (pairs : list (string * json))
  : option (json * string) :=
  match fuel with
  | O => None
  | S fuel' =>
      match scanstring s with
      | Some (key, after_key) =>
          match skip_ws after_key with
          | String ":" after_colon =>
              match scan_once (skip_ws after_colon) with
              | Some (value, after_value) =>
                  let pairs := dict_set pairs key value in
                  match skip_ws after_value with
                  | String "}" after => Some (JObject pairs, after)
                  | String "," after =>
                      match skip_ws after with
                      | String c after_quote =>
                          if Ascii.eqb c dquote
                          then JSONObject_loop fuel' after_quote pairs
                          else None
                      | EmptyString => None
                      end
                  | _ => None
                  end
              | None => None
              end
          | _ => None
          end
      | None => None
      end
  end.

(** [JSONObject], entered after the opening brace *)
Definition JSONObject (fuel : nat) (s : string) : option (json * string) :=
  match skip_ws s with
  | String "}" after => Some (JObject [], after)
  | String c after_quote =>
      if Ascii.eqb c dquote then JSONObject_loop fuel after_quote [] else None
  | EmptyString => None
  end.

(** The loop of [JSONArray], entered in front of a value *)
Fixpoint JSONArray_loop (fuel : nat) (s : string) (values : list json)
  : option (json * string) :=
  match fuel with
  | O => None
  | S fuel' =>
      match scan_once s with
      | Some (value, after_value) =>
          let values := values ++ [value] in
          match skip_ws after_value with
          | String "]" after => Some (JArray values, after)
          | String "," after => JSONArray_loop fuel' (skip_ws after) values
          | _ => None
          end
      | None => None
      end
  end.

(** [JSONArray], entered after the opening bracket *)
Definition JSONArray (fuel : nat) (s : string) : option (json * string) :=
  match skip_ws s with
  | String "]" after => Some (JArray [], after)
  | rest => JSONArray_loop fuel rest []
  end.
End Decoder.

(** [scan_once]; [fuel] bounds the nesting and the number of members, and
    the length of the text is always enough. *)
Fixpoint scan_once (fuel : nat) (s : string) : option (json * string) :=
  match fuel with
  | O => None
  | S fuel' =>
      match s with
      | String c rest =>
          if Ascii.eqb c dquote then
            match scanstring rest with
            | Some (text, after) => Some (JString text, after)
            | None => None
            end
          else if Ascii.eqb c "{" then JSONObject (scan_once fuel') fuel' rest
          else if Ascii.eqb c "[" then JSONArray (scan_once fuel') fuel' rest
          else if Ascii.eqb c "n" then
            match expect "ull" rest with Some after => Some (JNull, after) | None => None end
          else if Ascii.eqb c "t" then
            match expect "rue" rest with Some after => Some (JBool true, after) | None => None end
          else if Ascii.eqb c "f" then
            match expect "alse" rest with Some after => Some (JBool false, after) | None => None end
          else scan_number s
      | EmptyString => None
      end
  end.

(** [json.loads]: one value, with white space allowed around it *)
Definition loads (s : string) : option json :=
  match scan_once (S (String.length s)) (skip_ws s) with
  | Some (obj, after) =>
      match skip_ws after with
      | EmptyString => Some obj
      | _ => None
      end
  | None => None
  end.

End Json.

(** ** The gateway ([gateway.py]) *)

(** A [Run] in the hands of the gateway is a reference into [objects], the
    [Run] objects built so far; building an object appends it, and nothing
    in the gateway assigns to a field of an object once built.  [_runs] is
    the dictionary [self._runs], from identifiers to such references. *)
Definition ref : Type := nat.

Record RunGateway : Type := {
  _runs : gmap string ref;
  _service_name : string;
  _service_version : string;
  _run_coordinator : option RunCoordinatorGatewayClient;
  objects : list Run;
}.

Module Gateway.
Section Gateway.
Context `{Packages}.

(** [RunGateway(...)]; [environ] is [os.environ] at that moment. *)
Definition __init__
    (run_coordinator : option RunCoordinatorGatewayClient)
    (run_coordinator_url : option string)
    (run_coordinator_bearer_token : option string)
    (service_name service_version : string)
    (environ : gmap string string) : RunGateway :=
  let self (coordinator : option RunCoordinatorGatewayClient) :=
    {| _runs := ∅;
       _service_name := service_name;
       _service_version := service_version;
       _run_coordinator := coordinator;
       objects := [] |} in
  match run_coordinator with
  | Some coordinator => self (Some coordinator)
  | None =>
      let resolved_url :=
        match truthy run_coordinator_url with
        | Some url => Some url
        | None => run_coordinator_url_from_env environ
        end in
      match resolved_url with
      | None => self None
      | Some resolved_url =>
          let resolved_url := normalize_base_url resolved_url in
          let bearer_token :=
            match truthy run_coordinator_bearer_token with
            | Some token => Some token
            | None => run_coordinator_bearer_token_from_env environ
            end in
          self (Some (Adapter.__init__ resolved_url bearer_token None))
      end
  end.

(** Building a [Run] object: the new reference and the store with it. *)
Definition new_object (self : RunGateway) (run : Run) : ref * RunGateway :=
  (length (objects self),
   {| _runs := _runs self;
      _service_name := _service_name self;
      _service_version := _service_version self;
      _run_coordinator := _run_coordinator self;
      objects := objects self ++ [run] |}).

(** [self._runs[key] = run] *)
Definition set_run (self : RunGateway) (key : string) (run : ref) : RunGateway :=
  {| _runs := <[key := run]> (_runs self);
     _service_name := _service_name self;
     _service_version := _service_version self;
     _run_coordinator := _run_coordinator self;
     objects := objects self |}.

(** What a proxied call hands back: the [Run] the coordinator produced
    becomes an object of the store, an exception goes through. *)
Definition proxied (self : RunGateway) (result : outcome Run)
  : outcome ref * RunGateway :=
  match result with
  | Returns run => let (r, self') := new_object self run in (Returns r, self')
  | Raises exc => (Raises exc, self)
  end.

(** [health]; [time] is what [now()] yields. *)
Definition health (self : RunGateway) (time : datetime) : outcome Health :=
  match _run_coordinator self with
  | None =>
      Returns {| health_status := ok; health_time := time; health_checks := None |}
  | Some coordinator =>
      match Adapter.health coordinator with
      | Raises exc =>
          let check := {|
            check_name := "run_coordinator";
            check_status := down;
            check_message := Some (str exc);
            check_details := Some [("url", DString (base_url coordinator))] |} in
          Returns {| health_status := degraded; health_time := time;
                     health_checks := Some [check] |}
      | Returns downstream_health =>
          let check := {|
            check_name := "run_coordinator";
            check_status := health_status downstream_health;
            check_message := None;
            check_details := Some [
              ("url", DString (base_url coordinator));
              ("status", DStatus (health_status downstream_health))] |} in
          let checks := [check] in
          let checks :=
            match health_checks downstream_health with
            | Some (c :: more) => checks ++ c :: more
            | Some [] | None => checks
            end in
          Returns {| health_status := health_status downstream_health;
                     health_time := time;
                     health_checks := Some checks |}
      end
  end.

Definition version (self : RunGateway) : VersionInfo :=
  {| service_name := _service_name self;
     service_version := _service_version self;
     supported_api_versions := ["v1"] |}.

(** [start_run]; [uuid_run] and [uuid_node] are what the two evaluations
    of [uuid.uuid4().hex] yield (the first one takes place only when the
    request carries no identifier), [time] is what [now()] yields. *)
Definition start_run (self : RunGateway) (body : RunStartRequest)
    (uuid_run uuid_node : string) (time : datetime)
  : outcome ref * RunGateway :=
  match _run_coordinator self with
  | Some coordinator => proxied self (Adapter.start_run coordinator body)
  | None =>
      let run_id := str_or (req_run_id body) ("run_" +:+ uuid_run) in
      if decide (is_Some (_runs self !! run_id)) then
        (Raises (ServerError {|
           code := "run_already_exists";
           message := "Run '" +:+ run_id +:+ "' already exists";
           status_code := 409;
           details := None |}), self)
      else
        let root_node_run_id := "node_run_" +:+ uuid_node in
        let (run, self) := new_object self {|
          run_id := run_id;
          state := running;
          root_node_run_id := root_node_run_id;
          run_context := req_run_context body;
          started_at := time;
          ended_at := None;
          extensions := req_extensions body |} in
        (Returns run, set_run self run_id run)
  end.

Definition _get_local_run (self : RunGateway) (run_id : string) : outcome ref :=
  match _runs self !! run_id with
  | None =>
      Raises (ServerError {|
        code := "run_not_found";
        message := "Run '" +:+ run_id +:+ "' not found";
        status_code := 404;
        details := None |})
  | Some run => Returns run
  end.

Definition get_run (self : RunGateway) (run_id : string)
  : outcome ref * RunGateway :=
  match _run_coordinator self with
  | Some coordinator => proxied self (Adapter.get_run coordinator run_id)
  | None => (_get_local_run self run_id, self)
  end.

(** [run.model_copy(update={"state": state, "ended_at": ended_at})]:
    the content of the copy *)
Definition model_copy (run : Run) (state' : RunState) (ended_at' : datetime) : Run :=
  {| run_id := run_id run;
     state := state';
     root_node_run_id := root_node_run_id run;
     run_context := run_context run;
     started_at := started_at run;
     ended_at := Some ended_at';
     extensions := extensions run |}.

(** [cancel_run]; [time] is what [now()] yields when it is evaluated.
    The result is [None] only if [_runs] holds a reference to no object,
    which no sequence of calls brings about (see [wf] below). *)
Definition cancel_run (self : RunGateway) (run_id' : string) (time : datetime)
  : option (outcome ref * RunGateway) :=
  match _run_coordinator self with
  | Some coordinator => Some (proxied self (Adapter.cancel_run coordinator run_id'))
  | None =>
      match _get_local_run self run_id' with
      | Raises exc => Some (Raises exc, self)
      | Returns run =>
          match objects self !! run with
          | None => None
          | Some run_object =>
              if bool_decide (state run_object ∈ [succeeded; failed; canceled])
              then Some (Returns run, self)
              else
                let (updated, self) :=
                  new_object self (model_copy run_object canceled time) in
                Some (Returns updated, set_run self (run_id run_object) updated)
          end
      end
  end.

(** The one event of the local fall-back *)
Definition payload (run_id : string) (time : datetime) : json :=
  JObject [
    ("run_id", JString run_id);
    ("seq", JInt 0);
    ("type", JString "run_started");
    ("time", JString (isoformat time));
    ("data", JObject [
      ("message", JString "Template Run Gateway does not stream real events yet.")])].

Definition stream_run_events (self : RunGateway) (run_id : string)
    (time : datetime) : outcome string :=
  match _run_coordinator self with
  | Some coordinator => Adapter.stream_run_events coordinator run_id
  | None => Returns (Json.dumps (payload run_id time) +:+ String Json.newline EmptyString)
  end.

End Gateway.
End Gateway.

(** ** Vocabulary of the properties *)

(** The checks a report carries; like the gateway itself
    ([if downstream_health.checks: ...]) this reads a missing list as no
    checks. *)
Definition checks_of (h : Health) : list Check :=
  match health_checks h with
  | Some checks => checks
  | None => []
  end.

(** The exception a call ended with, if it raised. *)
Definition raised {T : Type} (o : outcome T) : option Exception :=
  match o with
  | Returns _ => None
  | Raises exc => Some exc
  end.

(** The call raised the gateway's standard error with this code and status. *)
Definition fails_with {T : Type} (o : outcome T) (c : string) (status : Z) : Prop :=
  ∃ err, o = Raises (ServerError err) ∧ code err = c ∧ status_code err = status.


Section Vocabulary.
Context `{Packages}.



(** The states a gateway goes through: built by [__init__], then changed
    by the calls that return a new state. *)
Inductive reachable : RunGateway -> Prop :=
| reachable_init coordinator url token name version environ :
    reachable (Gateway.__init__ coordinator url token name version environ)
| reachable_start_run self body uuid_run uuid_node time :
    reachable self ->
    reachable (Gateway.start_run self body uuid_run uuid_node time).2
| reachable_get_run self run_id :
    reachable self ->
    reachable (Gateway.get_run self run_id).2
| reachable_cancel_run self run_id time result self' :
    reachable self ->
    Gateway.cancel_run self run_id time = Some (result, self') ->
    reachable self'.
End Vocabulary.

(** What [_runs] satisfies in every such state: no empty key, and every
    key leads to an object that carries the key as its [run_id]. *)
Definition wf (self : RunGateway) : Prop :=
  ∀ key r, _runs self !! key = Some r ->
    key ≠ EmptyString ∧
    ∃ run, objects self !! r = Some run ∧ run_id run = key.

(** Every character of the text is one of the printable ASCII characters
    [' '..'~']; such a text holds no line break of any kind. *)
Definition printable (c : ascii) : bool :=
  N.leb 32 (N_of_ascii c) && N.leb (N_of_ascii c) 126.

Fixpoint all_printable (text : string) : bool :=
  match text with
  | EmptyString => true
  | String c rest => printable c && all_printable rest
  end.

Definition one_line (text : string) : Prop :=
  all_printable text = true.

(** The text stands for a [str] in which no high surrogate stands
    directly in front of a low one; every [str] of well-formed Unicode
    is such. *)
Definition is_text (s : string) : Prop :=
  ∃ cps, Unicode.is_str cps = true ∧ Unicode.unpaired cps = true ∧
         s = Unicode.utf8 cps.

(** The gateway's errors of the local mode *)
Definition run_already_exists (run_id : string) : Exception :=
  ServerError {|
    code := "run_already_exists";
    message := "Run '" +:+ run_id +:+ "' already exists";
    status_code := 409;
    details := None |}.

Definition run_not_found (run_id : string) : Exception :=
  ServerError {|
    code := "run_not_found";
    message := "Run '" +:+ run_id +:+ "' not found";
    status_code := 404;
    details := None |}.

(** ** Concrete inputs for the examples *)
Module Demo.

#[local] Instance packages : Packages := {|
  str_ArpApiError e := api_message e;
  str_ArpServerError e := message e;
  new_RunCoordinatorClient _ _ := {|
    client_cancel_run _ := Raises (OtherException "connection refused");
    client_get_run _ := Raises (OtherException "connection refused");
    client_health _ := Raises (OtherException "connection refused");
    client_start_run _ := Raises (OtherException "connection refused");
    client_stream_run_events _ := Raises (OtherException "connection refused") |};
|}.

Definition noon : datetime :=
  {| year := 2025; month := 1; day := 2;
     hour := 12; minute := 0; second := 0; microsecond := 0 |}.

Definition later : datetime :=
  {| year := 2025; month := 1; day := 2;
     hour := 12; minute := 30; second := 5; microsecond := 250 |}.

Definition body_run_1 : RunStartRequest :=
  {| req_run_id := Some "run_1";
     req_root_node_type_ref :=
       JObject [("node_type_id", JString "composite.echo"); ("version", JString "0.1.0")];
     req_input := JObject [("prompt", JString "hi")];
     req_run_context := None;
     req_extensions := None |}.

(** A gateway without coordinator, as [RunGateway()] builds it when the
    environment names none ... *)
Definition local : RunGateway :=
  Gateway.__init__ None None None "arp-template-run-gateway" "0.1.0" ∅.

(** ... after [start_run] of [run_1] ... *)
Definition started : RunGateway :=
  (Gateway.start_run local body_run_1 "00" "01" noon).2.


Definition not_found_downstream : ArpApiError :=
  {| api_code := "run_not_found"; api_message := "no such run";
     api_status_code := Some 404; api_details := None |}.

Definition db_down : Health :=
  {| health_status := degraded; health_time := noon;
     health_checks := Some [
       {| check_name := "db"; check_status := down;
          check_message := None; check_details := None |}] |}.

(** A coordinator that answers [health] and fails the rest *)
Definition client (health : outcome Health) (fault : Exception) : RunCoordinatorClient :=
  {| client_cancel_run _ := Raises fault;
     client_get_run _ := Raises fault;
     client_health _ := health;
     client_start_run _ := Raises fault;
     client_stream_run_events _ := Raises fault |}.

Definition coordinator (health : outcome Health) (fault : Exception)
  : RunCoordinatorGatewayClient :=
  {| base_url := "http://coordinator.test"; _client := client health fault |}.

Definition proxy (health : outcome Health) (fault : Exception) : RunGateway :=
  Gateway.__init__ (Some (coordinator health fault)) None None
    "arp-template-run-gateway" "0.1.0" ∅.

End Demo.

(** ** Vocabulary of the further properties *)

(** [n] slashes in a row *)
Fixpoint slashes (n : nat) : string :=
  match n with
  | O => EmptyString
  | S n' => String slash (slashes n')
  end.

(** [s.endswith(suffix)] *)
Definition ends_with (suffix s : string) : Prop :=
  ∃ front, s = front +:+ suffix.

(** The run the registry holds under an identifier *)
Definition stored (self : RunGateway) (id : string) (run : Run) : Prop :=
  ∃ r, _runs self !! id = Some r ∧ objects self !! r = Some run.

(** What a run of the local registry looks like: running and not ended,
    or canceled and ended. *)
Definition lifecycle (run : Run) : Prop :=
  (state run = running ∧ ended_at run = None) ∨
  (state run = canceled ∧ is_Some (ended_at run)).

(** Two runs are the same run at different moments of its life. *)
Definition same_run (run run' : Run) : Prop :=
  run_id run' = run_id run ∧
  root_node_run_id run' = root_node_run_id run ∧
  run_context run' = run_context run ∧
  started_at run' = started_at run ∧
  extensions run' = extensions run.

Section Steps.
Context `{Packages}.

(** One call that hands back a new state of the gateway *)
Inductive step : RunGateway -> RunGateway -> Prop :=
| step_start_run self body uuid_run uuid_node time :
    step self (Gateway.start_run self body uuid_run uuid_node time).2
| step_get_run self run_id :
    step self (Gateway.get_run self run_id).2
| step_cancel_run self run_id time result self' :
    Gateway.cancel_run self run_id time = Some (result, self') ->
    step self self'.

(** Any number of such calls, one after the other *)
Definition steps : RunGateway -> RunGateway -> Prop := rtc step.
End Steps.

(** ** Further concrete inputs *)
Module Scenario.

(** A request that names no run *)
Definition body_anonymous : RunStartRequest :=
  {| req_run_id := None;
     req_root_node_type_ref := JObject [("node_type_id", JString "composite.echo")];
     req_input := JObject [];
     req_run_context := Some (JObject [("tenant", JString "acme")]);
     req_extensions := None |}.

(** [Demo.started] after [cancel_run] of [run_1] *)
Definition canceled_once : RunGateway :=
  match Gateway.cancel_run (H := Demo.packages) Demo.started "run_1" Demo.later with
  | Some (_, gateway) => gateway
  | None => Demo.started
  end.

(** The run [start_run] built in [Demo.started], and its canceled copy *)
Definition started_run : Run :=
  {| run_id := "run_1"; state := running; root_node_run_id := "node_run_01";
     run_context := None; started_at := Demo.noon; ended_at := None;
     extensions := None |}.

Definition canceled_run : Run :=
  Gateway.model_copy started_run canceled Demo.later.

(** A request that carries the empty identifier *)
Definition body_empty_id : RunStartRequest :=
  {| req_run_id := Some EmptyString;
     req_root_node_type_ref := JObject [("node_type_id", JString "composite.echo")];
     req_input := JObject [];
     req_run_context := None;
     req_extensions := None |}.

(** A registry that holds a running run and one that has succeeded *)
Definition finished_run : Run :=
  {| run_id := "run_2"; state := succeeded; root_node_run_id := "node_run_02";
     run_context := None; started_at := Demo.noon; ended_at := Some Demo.later;
     extensions := None |}.

Definition two_runs : RunGateway :=
  {| _runs := <["run_1" := 0%nat]> (<["run_2" := 1%nat]> ∅);
     _service_name := "arp-template-run-gateway";
     _service_version := "0.1.0";
     _run_coordinator := None;
     objects := [started_run; finished_run] |}.

(** The code points of [r€] and a smiling face, and a high and a low
    surrogate one after the other *)
Definition euro_smile : list N := [114; 8364; 128512]%N.

(** A coordinator that knows [run_1] and whose other calls fail *)
Definition run_1 : Run :=
  {| run_id := "run_1"; state := succeeded; root_node_run_id := "node_run_9";
     run_context := None; started_at := Demo.noon; ended_at := Some Demo.later;
     extensions := None |}.

Definition knows_run_1 : RunCoordinatorGatewayClient :=
  {| base_url := "http://coordinator.test";
     _client := {|
       client_cancel_run _ := Raises (ApiError Demo.not_found_downstream);
       client_get_run id :=
         if String.eqb id "run_1" then Returns run_1
         else Raises (ApiError Demo.not_found_downstream);
       client_health _ := Raises (OtherException "timed out");
       client_start_run _ := Raises (OtherException "connection reset");
       client_stream_run_events _ := Returns "{}" |} |}.

Definition proxy : RunGateway :=
  Gateway.__init__ (H := Demo.packages) (Some knows_run_1) None None
    "arp-template-run-gateway" "0.1.0" ∅.

End Scenario.

(** * Properties *)

(** ** The definitions at work *)

Example normalize_base_url_strips_v1 :
  normalize_base_url "http://coordinator.test/v1//" = "http://coordinator.test"
  ∧ normalize_base_url "http://coordinator.test/v1/runs" = "http://coordinator.test/v1/runs".
Proof. split; reflexivity. Qed.

Example isoformat_of_utc :
  isoformat Demo.noon = "2025-01-02T12:00:00+00:00"
  ∧ isoformat Demo.later = "2025-01-02T12:30:05.000250+00:00".
Proof. split; reflexivity. Qed.

Example escape_of_controls :
  Json.escape (String "010" (String "127" "a\b")) = "\n\u007fa\\b".
Proof. reflexivity. Qed.

Example loads_keeps_last_of_a_key :
  Json.loads (Json.dumps (JObject [("a", JInt 1); ("b", JArray [JNull; JBool true]);
                                   ("a", JInt (-3))]))
  = Some (JObject [("a", JInt (-3)); ("b", JArray [JNull; JBool true])]).
Proof. reflexivity. Qed.

(** [tests/test_gateway_smoke.py], [test_start_and_get_run_local] *)
Example test_start_and_get_run_local :
  let (run, gateway) :=
    Gateway.start_run (H := Demo.packages) Demo.local Demo.body_run_1 "00" "01" Demo.noon in
  let (fetched, gateway') := Gateway.get_run (H := Demo.packages) gateway "run_1" in
  run = Returns 0%nat ∧ fetched = run ∧ gateway' = gateway ∧
  run_id <$> objects gateway !! 0%nat = Some "run_1".
Proof. repeat split. Qed.

(** [tests/test_gateway_smoke.py], [test_health_propagates_downstream_status] *)
Example test_health_propagates_downstream_status :
  ∃ response,
    Gateway.health (H := Demo.packages)
      (Demo.proxy (Returns Demo.db_down) (OtherException "unused")) Demo.noon
      = Returns response ∧
    health_status response = degraded ∧
    ∃ checks, health_checks response = Some checks ∧
      Exists (λ check, check_name check = "run_coordinator") checks.
Proof.
  eexists. split; [reflexivity |]. split; [reflexivity |].
  eexists. split; [reflexivity |]. now apply Exists_cons_hd.
Qed.

(** Cancelling twice: the second call returns the run the first one made. *)
Example cancel_run_twice :
  ∃ gateway,
    Gateway.cancel_run (H := Demo.packages) Demo.started "run_1" Demo.later
      = Some (Returns 1%nat, gateway) ∧
    Gateway.cancel_run (H := Demo.packages) gateway "run_1" Demo.noon
      = Some (Returns 1%nat, gateway) ∧
    state <$> objects gateway !! 0%nat = Some running ∧
    state <$> objects gateway !! 1%nat = Some canceled ∧
    ended_at <$> objects gateway !! 1%nat = Some (Some Demo.later).
Proof. eexists. repeat split. Qed.

(** ** The adapter *)
Section AdapterFacts.
Context `{Packages}.




End AdapterFacts.



(** ** Health *)
Section HealthFacts.
Context `{Packages}.

(** C8.  Without coordinator, [health] returns a report with status
    [ok], the time [now()] gave, and no checks. *)
Theorem C8_health_without_coordinator (self : RunGateway) (time : datetime) :
  _run_coordinator self = None ->
  ∃ report, Gateway.health self time = Returns report ∧
    health_status report = ok ∧
    health_time report = time ∧
    checks_of report = [].
Proof.
  intros Hlocal. unfold Gateway.health. rewrite Hlocal.
  eexists; split; [reflexivity |]. done.
Qed.

(** C3.  With a coordinator whose [health] raises [exc], [health]
    returns, and the report has status [degraded] and one check,
    [run_coordinator], with status [down], [str exc] as message and the
    URL of the coordinator as details. *)
Theorem C3_health_coordinator_fault (self : RunGateway)
    (coordinator : RunCoordinatorGatewayClient) (exc : Exception)
    (time : datetime) :
  _run_coordinator self = Some coordinator ->
  Adapter.health coordinator = Raises exc ->
  ∃ report, Gateway.health self time = Returns report ∧
    health_status report = degraded ∧
    health_status report ≠ down ∧
    checks_of report =
      [ {| check_name := "run_coordinator";
           check_status := down;
           check_message := Some (str exc);
           check_details := Some [("url", DString (base_url coordinator))] |} ].
Proof.
  intros Hproxy Hfault. unfold Gateway.health. rewrite Hproxy, Hfault.
  eexists; split; [reflexivity |]. done.
Qed.

(** C4.  With a coordinator whose [health] returns a report, [health]
    returns a report with the same status, whose checks are the check
    [run_coordinator] (with that status, and the URL and the status as
    details) and then the checks of the coordinator's report, in order. *)
Theorem C4_health_coordinator_report (self : RunGateway)
    (coordinator : RunCoordinatorGatewayClient) (downstream : Health)
    (time : datetime) :
  _run_coordinator self = Some coordinator ->
  Adapter.health coordinator = Returns downstream ->
  ∃ report, Gateway.health self time = Returns report ∧
    health_status report = health_status downstream ∧
    health_checks report = Some (
      {| check_name := "run_coordinator";
         check_status := health_status downstream;
         check_message := None;
         check_details := Some [
           ("url", DString (base_url coordinator));
           ("status", DStatus (health_status downstream))] |}
      :: checks_of downstream).
Proof.
  intros Hproxy Hreport. unfold Gateway.health. rewrite Hproxy, Hreport.
  eexists; split; [reflexivity |]. split; [done |].
  unfold checks_of. simpl. now destruct (health_checks downstream) as [[| c more] |].
Qed.

End HealthFacts.

Lemma C8_health_without_coordinator_witness :
  _run_coordinator Demo.started = None ∧
  ∃ report, Gateway.health (H := Demo.packages) Demo.started Demo.later = Returns report ∧
    health_status report = ok ∧
    health_time report = Demo.later ∧
    checks_of report = [].
Proof.
  split; [reflexivity |].
  exact (C8_health_without_coordinator (H := Demo.packages)
           Demo.started Demo.later eq_refl).
Defined.

Lemma C3_health_coordinator_fault_witness :
  let coordinator := Demo.coordinator (Raises (OtherException "timed out"))
                                      (OtherException "unused") in
  let exc := ServerError {|
    code := "run_coordinator_unavailable";
    message := "Run Coordinator request failed";
    status_code := 502;
    details := Some (JObject [
      ("run_coordinator_url", JString "http://coordinator.test");
      ("error", JString "timed out")]) |} in
  let self := Demo.proxy (Raises (OtherException "timed out"))
                         (OtherException "unused") in
  _run_coordinator self = Some coordinator ∧
  Adapter.health (H := Demo.packages) coordinator = Raises exc ∧
  ∃ report, Gateway.health (H := Demo.packages) self Demo.noon = Returns report ∧
    health_status report = degraded ∧
    health_status report ≠ down ∧
    checks_of report =
      [ {| check_name := "run_coordinator";
           check_status := down;
           check_message := Some "Run Coordinator request failed";
           check_details := Some [("url", DString "http://coordinator.test")] |} ].
Proof.
  intros coordinator exc self.
  split; [reflexivity |]. split; [reflexivity |].
  exact (C3_health_coordinator_fault (H := Demo.packages)
           self coordinator exc Demo.noon eq_refl eq_refl).
Defined.

Lemma C4_health_coordinator_report_witness :
  let coordinator := Demo.coordinator (Returns Demo.db_down)
                                      (OtherException "unused") in
  let self := Demo.proxy (Returns Demo.db_down) (OtherException "unused") in
  _run_coordinator self = Some coordinator ∧
  Adapter.health (H := Demo.packages) coordinator = Returns Demo.db_down ∧
  ∃ report, Gateway.health (H := Demo.packages) self Demo.noon = Returns report ∧
    health_status report = degraded ∧
    health_checks report = Some [
      {| check_name := "run_coordinator";
         check_status := degraded;
         check_message := None;
         check_details := Some [
           ("url", DString "http://coordinator.test");
           ("status", DStatus degraded)] |};
      {| check_name := "db"; check_status := down;
         check_message := None; check_details := None |} ].
Proof.
  intros coordinator self.
  split; [reflexivity |]. split; [reflexivity |].
  exact (C4_health_coordinator_report (H := Demo.packages)
           self coordinator Demo.db_down Demo.noon eq_refl eq_refl).
Defined.

(** ** The local registry *)
Section RegistryFacts.
Context `{Packages}.

Lemma truthy_nonempty (x : option string) (s : string) :
  truthy x = Some s -> s ≠ EmptyString ∧ x = Some s.
Proof. destruct x as [[| c rest] |]; simpl; intros [= <-]; done. Qed.

Lemma str_or_nonempty (x : option string) (d : string) :
  d ≠ EmptyString -> str_or x d ≠ EmptyString.
Proof.
  intros Hd. unfold str_or.
  destruct (truthy x) as [s |] eqn:Hx; [| done].
  now apply truthy_nonempty in Hx.
Qed.

Lemma str_or_supplied (id d : string) :
  id ≠ EmptyString -> str_or (Some id) d = id.
Proof. now destruct id. Qed.

(** Objects are only ever added at the end of the store. *)
Lemma new_object_spec (self : RunGateway) (run : Run) :
  let (r, self') := Gateway.new_object self run in
  r = length (objects self) ∧
  objects self' !! r = Some run ∧
  _runs self' = _runs self ∧
  _run_coordinator self' = _run_coordinator self ∧
  ∀ i o, objects self !! i = Some o -> objects self' !! i = Some o.
Proof.
  simpl. repeat split.
  - rewrite lookup_app_r by lia. now rewrite Nat.sub_diag.
  - intros i o Hi. apply lookup_app_l_Some, Hi.
Qed.

Lemma wf_new_object (self : RunGateway) (run : Run) :
  wf self -> wf (Gateway.new_object self run).2.
Proof.
  intros Hwf key r Hkey. simpl in *.
  destruct (Hwf key r Hkey) as (Hne & o & Ho & Hid).
  split; [done |]. exists o. split; [| done]. now apply lookup_app_l_Some.
Qed.

Lemma wf_set_run (self : RunGateway) (key : string) (r : ref) (run : Run) :
  wf self -> key ≠ EmptyString ->
  objects self !! r = Some run -> run_id run = key ->
  wf (Gateway.set_run self key r).
Proof.
  intros Hwf Hne Hr Hid key' r' Hkey'. simpl in *.
  destruct (decide (key = key')) as [<- | Hdiff].
  - rewrite lookup_insert_eq in Hkey'. injection Hkey' as <-. eauto.
  - rewrite lookup_insert_ne in Hkey' by done. now apply Hwf.
Qed.

Lemma wf_proxied (self : RunGateway) (result : outcome Run) :
  wf self -> wf (Gateway.proxied self result).2.
Proof.
  intros Hwf. destruct result as [run | exc]; simpl; [| done].
  apply (wf_new_object self run Hwf).
Qed.

Lemma wf_init coordinator url token name version environ :
  wf (Gateway.__init__ coordinator url token name version environ).
Proof.
  assert (Hempty : ∀ self, _runs self = ∅ -> wf self).
  { intros self Hruns key r. rewrite Hruns, lookup_empty. discriminate. }
  apply Hempty. unfold Gateway.__init__.
  destruct coordinator; [done |].
  destruct (truthy url); [done |].
  now destruct (run_coordinator_url_from_env environ).
Qed.

Lemma wf_start_run (self : RunGateway) (body : RunStartRequest)
    (uuid_run uuid_node : string) (time : datetime) :
  wf self -> wf (Gateway.start_run self body uuid_run uuid_node time).2.
Proof.
  intros Hwf. unfold Gateway.start_run.
  destruct (_run_coordinator self); [now apply wf_proxied |].
  case_decide; [done |].
  pose proof (new_object_spec self
    {| run_id := str_or (req_run_id body) ("run_" +:+ uuid_run);
       state := running;
       root_node_run_id := "node_run_" +:+ uuid_node;
       run_context := req_run_context body;
       started_at := time;
       ended_at := None;
       extensions := req_extensions body |}) as Hnew.
  pose proof (wf_new_object self
    {| run_id := str_or (req_run_id body) ("run_" +:+ uuid_run);
       state := running;
       root_node_run_id := "node_run_" +:+ uuid_node;
       run_context := req_run_context body;
       started_at := time;
       ended_at := None;
       extensions := req_extensions body |} Hwf) as Hwf'.
  destruct (Gateway.new_object self _) as [r self'].
  destruct Hnew as (_ & Hr & _). simpl.
  eapply wf_set_run; [exact Hwf' | | exact Hr | done].
  now apply str_or_nonempty.
Qed.

Lemma wf_get_run (self : RunGateway) (run_id : string) :
  wf self -> wf (Gateway.get_run self run_id).2.
Proof.
  intros Hwf. unfold Gateway.get_run.
  destruct (_run_coordinator self); [now apply wf_proxied | done].
Qed.

Lemma wf_cancel_run (self self' : RunGateway) (run_id : string)
    (time : datetime) (result : outcome ref) :
  wf self ->
  Gateway.cancel_run self run_id time = Some (result, self') ->
  wf self'.
Proof.
  intros Hwf. unfold Gateway.cancel_run, Gateway._get_local_run.
  destruct (_run_coordinator self) as [coordinator |].
  { intros [= Hp].
    pose proof (wf_proxied self (Adapter.cancel_run coordinator run_id) Hwf) as Hw.
    now rewrite Hp in Hw. }
  destruct (_runs self !! run_id) as [r |] eqn:Hrun; [| now intros [= _ <-]].
  destruct (objects self !! r) as [run |] eqn:Hobj; [| discriminate].
  case_bool_decide; [now intros [= _ <-] |].
  pose proof (new_object_spec self (Gateway.model_copy run canceled time)) as Hnew.
  pose proof (wf_new_object self (Gateway.model_copy run canceled time) Hwf) as Hwf'.
  destruct (Gateway.new_object self _) as [r' self1].
  destruct Hnew as (_ & Hr' & _). intros [= _ <-].
  destruct (Hwf run_id r Hrun) as (Hne & run0 & Hobj0 & Hid).
  assert (run0 = run) as -> by congruence.
  eapply wf_set_run; [exact Hwf' | | exact Hr' | reflexivity].
  now rewrite Hid.
Qed.

(** Every state a gateway goes through is well formed. *)
Lemma reachable_wf (self : RunGateway) : reachable self -> wf self.
Proof.
  induction 1 as [| self body u1 u2 t _ IH | self rid _ IH | self rid t o self' _ IH Hc].
  - apply wf_init.
  - now apply wf_start_run.
  - now apply wf_get_run.
  - exact (wf_cancel_run self self' rid t o IH Hc).
Qed.

(** C5.  In local mode, the identifier of a start request is the one it
    carries when that is not empty, and [run_] with the value of [uuid4]
    when it carries none or the empty one.  When that identifier is not in
    the registry, [start_run] returns a run with it, in state [running],
    started at the time [now()] gave and not ended, with the [run_context]
    and [extensions] of the request; the registry maps the identifier to
    that run, and [get_run] then returns the same run. *)
Theorem C5_start_run_local (self : RunGateway) (body : RunStartRequest)
    (uuid_run uuid_node : string) (time : datetime) :
  let id := match req_run_id body with
            | Some (String c supplied) => String c supplied
            | Some EmptyString | None => "run_" +:+ uuid_run
            end in
  _run_coordinator self = None ->
  _runs self !! id = None ->
  ∃ r self',
    Gateway.start_run self body uuid_run uuid_node time = (Returns r, self') ∧
    objects self' !! r = Some
      {| run_id := id;
         state := running;
         root_node_run_id := "node_run_" +:+ uuid_node;
         run_context := req_run_context body;
         started_at := time;
         ended_at := None;
         extensions := req_extensions body |} ∧
    _runs self' = <[id := r]> (_runs self) ∧
    Gateway.get_run self' id = (Returns r, self').
Proof.
  intros id Hlocal Hfree.
  assert (Hid : str_or (req_run_id body) ("run_" +:+ uuid_run) = id)
    by (subst id; now destruct (req_run_id body) as [[| c supplied] |]).
  unfold Gateway.start_run. rewrite Hlocal, Hid.
  case_decide as Hin; [rewrite Hfree in Hin; now destruct Hin |].
  simpl. eexists _, _. split; [reflexivity |]. simpl. repeat split.
  - rewrite lookup_app_r by lia. now rewrite Nat.sub_diag.
  - unfold Gateway.get_run, Gateway._get_local_run. simpl.
    now rewrite Hlocal, lookup_insert_eq.
Qed.

(** C6.  In local mode, [start_run] with an identifier that is in the
    registry raises [run_already_exists] with status 409.  With a
    coordinator the request goes to the adapter whatever the registry
    holds: [start_run] ends as the adapter's call ends, and leaves the
    registry as it is. *)
Theorem C6_start_run_collision (self : RunGateway) (body : RunStartRequest)
    (uuid_run uuid_node : string) (time : datetime) :
  reachable self ->
  match _run_coordinator self with
  | None =>
      ∀ id, req_run_id body = Some id -> is_Some (_runs self !! id) ->
        Gateway.start_run self body uuid_run uuid_node time =
          (Raises (run_already_exists id), self)
        ∧ fails_with (Gateway.start_run self body uuid_run uuid_node time).1
            "run_already_exists" 409
  | Some coordinator =>
      match Adapter.start_run coordinator body with
      | Returns run =>
          ∃ r self',
            Gateway.start_run self body uuid_run uuid_node time = (Returns r, self') ∧
            objects self' !! r = Some run ∧
            _runs self' = _runs self
      | Raises exc =>
          Gateway.start_run self body uuid_run uuid_node time = (Raises exc, self)
      end
  end.
Proof.
  intros Hreach. unfold Gateway.start_run.
  destruct (_run_coordinator self) as [coordinator |].
  - destruct (Adapter.start_run coordinator body) as [run | exc]; simpl; [| done].
    eexists _, _. split; [reflexivity |]. simpl. split; [| done].
    rewrite lookup_app_r by lia. now rewrite Nat.sub_diag.
  - intros id Hid [r Hr].
    destruct (reachable_wf self Hreach id r Hr) as (Hne & _).
    rewrite Hid, (str_or_supplied id _ Hne).
    case_decide as Hin; [| now destruct Hin; eauto].
    split; [done |]. eexists. split; [reflexivity |]. done.
Qed.

(** C7.  In local mode, [get_run] and [cancel_run] raise [run_not_found]
    with status 404 exactly when the identifier is not in the registry,
    and when it is there the lookup returns the run stored under it. *)
Theorem C7_not_found_iff_absent (self : RunGateway) (id : string)
    (time : datetime) :
  reachable self ->
  _run_coordinator self = None ->
  (fails_with (Gateway.get_run self id).1 "run_not_found" 404
     ↔ _runs self !! id = None) ∧
  (∃ result self', Gateway.cancel_run self id time = Some (result, self') ∧
     (fails_with result "run_not_found" 404 ↔ _runs self !! id = None)) ∧
  (∀ r, _runs self !! id = Some r ->
     Gateway._get_local_run self id = Returns r ∧
     Gateway.get_run self id = (Returns r, self)).
Proof.
  intros Hreach Hlocal.
  assert (Hnot : ∀ r : ref, ¬ fails_with (Returns r) "run_not_found" 404)
    by (intros r (err & [=] & _)).
  assert (Hfails : fails_with (@Raises ref (run_not_found id)) "run_not_found" 404)
    by (eexists; split; [reflexivity | done]).
  unfold Gateway.cancel_run, Gateway.get_run, Gateway._get_local_run.
  rewrite Hlocal. fold (run_not_found id). simpl.
  destruct (_runs self !! id) as [r |] eqn:Hr.
  - destruct (reachable_wf self Hreach id r Hr) as (_ & run & Hobj & _).
    rewrite Hobj. split; [| split].
    + split; [intros Hf; now apply Hnot in Hf | discriminate].
    + case_bool_decide; eexists _, _; (split; [reflexivity |]);
        (split; [intros Hf; now apply Hnot in Hf | discriminate]).
    + now intros r' [= <-].
  - split; [| split].
    + done.
    + eexists _, _. split; [reflexivity |]. done.
    + discriminate.
Qed.

(** C2.  In local mode, for an identifier the registry maps to a run,
    in any well-formed registry (every reachable one is, [reachable_wf]):
    if the run has succeeded, has failed or is canceled, [cancel_run]
    returns that very run and changes nothing; if it is running,
    [cancel_run] returns a new run that differs from it in
    [state = canceled] and [ended_at = now()] only, the registry maps the
    identifier to the new run, and the run that was stored before is as it
    was. *)
Theorem C2_cancel_run_local (self : RunGateway) (id : string) (r : ref)
    (time : datetime) :
  wf self ->
  _run_coordinator self = None ->
  _runs self !! id = Some r ->
  ∃ run, objects self !! r = Some run ∧
    (state run ∈ [succeeded; failed; canceled] ->
       Gateway.cancel_run self id time = Some (Returns r, self)) ∧
    (state run = running ->
       ∃ r' self',
         Gateway.cancel_run self id time = Some (Returns r', self') ∧
         objects self' !! r' = Some
           {| run_id := run_id run;
              state := canceled;
              root_node_run_id := root_node_run_id run;
              run_context := run_context run;
              started_at := started_at run;
              ended_at := Some time;
              extensions := extensions run |} ∧
         _runs self' = <[id := r']> (_runs self) ∧
         r' ≠ r ∧
         objects self' !! r = Some run ∧
         ∀ i o, objects self !! i = Some o -> objects self' !! i = Some o).
Proof.
  intros Hwf Hlocal Hr.
  destruct (Hwf id r Hr) as (_ & run & Hobj & Hid).
  exists run. split; [done |].
  unfold Gateway.cancel_run, Gateway._get_local_run.
  rewrite Hlocal, Hr, Hobj. split.
  - intros Hterminal. now rewrite bool_decide_eq_true_2.
  - intros Hrunning. rewrite bool_decide_eq_false_2.
    2: { rewrite Hrunning, !elem_of_cons, elem_of_nil.
         intros [? | [? | [? | []]]]; discriminate. }
    simpl. eexists _, _. split; [reflexivity |]. simpl.
    pose proof (lookup_lt_Some _ _ _ Hobj) as Hlt.
    repeat split.
    + rewrite lookup_app_r by lia. now rewrite Nat.sub_diag.
    + now rewrite Hid.
    + lia.
    + now apply lookup_app_l_Some.
    + intros i o Hi. now apply lookup_app_l_Some.
Qed.

(** C10.  In local mode, when [start_run], [get_run] or [cancel_run]
    raises, it raises [run_already_exists] or [run_not_found], and the
    gateway, its registry and the runs in it are as before the call. *)
Theorem C10_errors_change_nothing (self : RunGateway) :
  _run_coordinator self = None ->
  (∀ body uuid_run uuid_node time exc self',
     Gateway.start_run self body uuid_run uuid_node time = (Raises exc, self') ->
     self' = self ∧
     exc = run_already_exists (str_or (req_run_id body) ("run_" +:+ uuid_run)) ∧
     is_Some (_runs self !! str_or (req_run_id body) ("run_" +:+ uuid_run))) ∧
  (∀ id exc self',
     Gateway.get_run self id = (Raises exc, self') ->
     self' = self ∧ exc = run_not_found id) ∧
  (∀ id time exc self',
     Gateway.cancel_run self id time = Some (Raises exc, self') ->
     self' = self ∧ exc = run_not_found id).
Proof.
  intros Hlocal. split; [| split].
  - intros body uuid_run uuid_node time exc self'.
    unfold Gateway.start_run. rewrite Hlocal.
    case_decide as Hin; simpl; [| discriminate].
    now intros [= <- <-].
  - intros id exc self'.
    unfold Gateway.get_run, Gateway._get_local_run. rewrite Hlocal.
    destruct (_runs self !! id); [discriminate |]. now intros [= <- <-].
  - intros id time exc self'.
    unfold Gateway.cancel_run, Gateway._get_local_run. rewrite Hlocal.
    destruct (_runs self !! id) as [r |]; [| now intros [= <- <-]].
    destruct (objects self !! r); [| discriminate].
    case_bool_decide; simpl; discriminate.
Qed.

End RegistryFacts.

(** With the empty identifier in the request, which is not in the
    registry, the run [start_run] returns carries [run_00] and not the
    empty identifier, and [get_run] of the empty identifier finds no run. *)
Lemma C5_empty_identifier :
  req_run_id Scenario.body_empty_id = Some EmptyString ∧
  _runs Demo.local !! EmptyString = None ∧
  ∃ r self',
    Gateway.start_run (H := Demo.packages) Demo.local Scenario.body_empty_id
      "00" "01" Demo.noon = (Returns r, self') ∧
    run_id <$> objects self' !! r = Some "run_00" ∧
    run_id <$> objects self' !! r ≠ Some EmptyString ∧
    Gateway.get_run (H := Demo.packages) self' EmptyString
      = (Raises (run_not_found EmptyString), self').
Proof.
  split; [reflexivity |]. split; [reflexivity |].
  eexists _, _. split; [reflexivity |]. split; [reflexivity |].
  split; [discriminate | reflexivity].
Qed.

Lemma C5_start_run_local_witness :
  _run_coordinator Demo.local = None ∧
  _runs Demo.local !! "run_1" = None ∧
  ∃ r self',
    Gateway.start_run (H := Demo.packages) Demo.local Demo.body_run_1 "00" "01" Demo.noon
      = (Returns r, self') ∧
    objects self' !! r = Some
      {| run_id := "run_1";
         state := running;
         root_node_run_id := "node_run_" +:+ "01";
         run_context := None;
         started_at := Demo.noon;
         ended_at := None;
         extensions := None |} ∧
    _runs self' = <["run_1" := r]> (_runs Demo.local) ∧
    Gateway.get_run (H := Demo.packages) self' "run_1" = (Returns r, self').
Proof.
  split; [reflexivity |]. split; [reflexivity |].
  exact (C5_start_run_local (H := Demo.packages)
           Demo.local Demo.body_run_1 "00" "01" Demo.noon eq_refl eq_refl).
Defined.

Lemma C6_start_run_collision_witness :
  reachable (H := Demo.packages) Demo.started ∧
  req_run_id Demo.body_run_1 = Some "run_1" ∧
  is_Some (_runs Demo.started !! "run_1") ∧
  Gateway.start_run (H := Demo.packages) Demo.started Demo.body_run_1 "02" "03" Demo.later
    = (Raises (run_already_exists "run_1"), Demo.started) ∧
  fails_with
    (Gateway.start_run (H := Demo.packages) Demo.started Demo.body_run_1 "02" "03" Demo.later).1
    "run_already_exists" 409.
Proof.
  assert (Hreach : reachable (H := Demo.packages) Demo.started)
    by apply reachable_start_run, reachable_init.
  assert (Hin : is_Some (_runs Demo.started !! "run_1"))
    by (exists 0%nat; reflexivity).
  split; [exact Hreach |]. split; [reflexivity |]. split; [exact Hin |].
  exact (C6_start_run_collision (H := Demo.packages)
           Demo.started Demo.body_run_1 "02" "03" Demo.later Hreach
           "run_1" eq_refl Hin).
Defined.

Lemma C7_not_found_iff_absent_witness :
  reachable (H := Demo.packages) Demo.started ∧
  _run_coordinator Demo.started = None ∧
  (fails_with (Gateway.get_run (H := Demo.packages) Demo.started "run_2").1
     "run_not_found" 404
     ↔ _runs Demo.started !! "run_2" = None) ∧
  (∃ result self',
     Gateway.cancel_run (H := Demo.packages) Demo.started "run_2" Demo.later
       = Some (result, self') ∧
     (fails_with result "run_not_found" 404 ↔ _runs Demo.started !! "run_2" = None)) ∧
  (∀ r, _runs Demo.started !! "run_2" = Some r ->
     Gateway._get_local_run Demo.started "run_2" = Returns r ∧
     Gateway.get_run (H := Demo.packages) Demo.started "run_2" = (Returns r, Demo.started)).
Proof.
  assert (Hreach : reachable (H := Demo.packages) Demo.started)
    by apply reachable_start_run, reachable_init.
  split; [exact Hreach |].
  split; [reflexivity |].
  exact (C7_not_found_iff_absent (H := Demo.packages)
           Demo.started "run_2" Demo.later Hreach eq_refl).
Defined.

Lemma C2_cancel_run_local_witness :
  wf Scenario.two_runs ∧
  _run_coordinator Scenario.two_runs = None ∧
  _runs Scenario.two_runs !! "run_2" = Some 1%nat ∧
  _runs Scenario.two_runs !! "run_1" = Some 0%nat ∧
  Gateway.cancel_run (H := Demo.packages) Scenario.two_runs "run_2" Demo.later
    = Some (Returns 1%nat, Scenario.two_runs) ∧
  ∃ r' self',
    Gateway.cancel_run (H := Demo.packages) Scenario.two_runs "run_1" Demo.later
      = Some (Returns r', self') ∧
    objects self' !! r' = Some Scenario.canceled_run ∧
    _runs self' = <["run_1" := r']> (_runs Scenario.two_runs) ∧
    r' ≠ 0%nat ∧
    objects self' !! 0%nat = Some Scenario.started_run.
Proof.
  assert (Hwf : wf Scenario.two_runs).
  { intros key r Hkey. unfold Scenario.two_runs in Hkey. cbn [_runs] in Hkey.
    apply lookup_insert_Some in Hkey as [[<- <-] | [_ Hkey]].
    { split; [discriminate |]. now exists Scenario.started_run. }
    apply lookup_insert_Some in Hkey as [[<- <-] | [_ Hkey]].
    { split; [discriminate |]. now exists Scenario.finished_run. }
    now rewrite lookup_empty in Hkey. }
  split; [exact Hwf |]. split; [reflexivity |].
  split; [reflexivity |]. split; [reflexivity |].
  split.
  - destruct (C2_cancel_run_local (H := Demo.packages) Scenario.two_runs
                "run_2" 1%nat Demo.later Hwf eq_refl eq_refl)
      as (run & Hrun & Hterminal & _).
    apply Hterminal. injection Hrun as <-.
    rewrite !elem_of_cons. now left.
  - destruct (C2_cancel_run_local (H := Demo.packages) Scenario.two_runs
                "run_1" 0%nat Demo.later Hwf eq_refl eq_refl)
      as (run & Hrun & _ & Hrunning).
    injection Hrun as <-.
    destruct (Hrunning eq_refl) as (r' & self' & Hc & Hobj & Hruns & Hne & Hold & _).
    exists r', self'. repeat split; assumption.
Defined.

Lemma C10_errors_change_nothing_witness :
  _run_coordinator Demo.started = None ∧
  (∀ body uuid_run uuid_node time exc self',
     Gateway.start_run (H := Demo.packages) Demo.started body uuid_run uuid_node time
       = (Raises exc, self') ->
     self' = Demo.started ∧
     exc = run_already_exists (str_or (req_run_id body) ("run_" +:+ uuid_run)) ∧
     is_Some (_runs Demo.started !! str_or (req_run_id body) ("run_" +:+ uuid_run))) ∧
  (∀ id exc self',
     Gateway.get_run (H := Demo.packages) Demo.started id = (Raises exc, self') ->
     self' = Demo.started ∧ exc = run_not_found id) ∧
  (∀ id time exc self',
     Gateway.cancel_run (H := Demo.packages) Demo.started id time
       = Some (Raises exc, self') ->
     self' = Demo.started ∧ exc = run_not_found id).
Proof.
  split; [reflexivity |].
  exact (C10_errors_change_nothing (H := Demo.packages) Demo.started eq_refl).
Defined.

(** ** Text *)
Section TextFacts.
Import Json Unicode.
#[local] Open Scope N_scope.

Ltac Zify.zify_post_hook ::= Z.to_euclidean_division_equations.

Lemma app_String (c : ascii) (s t : string) : String c s +:+ t = String c (s +:+ t).
Proof. reflexivity. Qed.
Lemma app_empty (s : string) : EmptyString +:+ s = s.
Proof. reflexivity. Qed.
Lemma app_assoc (a b c : string) : (a +:+ b) +:+ c = a +:+ (b +:+ c).
Proof. induction a as [| x a IH]; [done |]. rewrite !app_String. now rewrite IH. Qed.

Lemma byte_of_N (n : N) : n < 256 -> N_of_ascii (ascii_of_N n) = n.
Proof. apply N_ascii_embedding. Qed.

Lemma continuation_byte (x : N) :
  x < 64 -> continuation (ascii_of_N (128 + x)) = Some x.
Proof.
  intros Hx. unfold continuation. rewrite byte_of_N by lia.
  destruct (N.leb_spec 128 (128 + x)); [| lia].
  destruct (N.ltb_spec (128 + x) 192); [| lia].
  cbn. f_equal. lia.
Qed.

Lemma code_points_1 (c : ascii) (rest : string) :
  N_of_ascii c < 192 ->
  code_points (String c rest) = N_of_ascii c :: code_points rest.
Proof.
  intros Hc. cbn [code_points].
  destruct (N.ltb_spec (N_of_ascii c) 192); [done | lia].
Qed.

Lemma code_points_2 (c c1 : ascii) (x1 : N) (rest : string) :
  192 <= N_of_ascii c < 224 -> continuation c1 = Some x1 ->
  code_points (String c (String c1 rest))
  = (N_of_ascii c - 192) * 64 + x1 :: code_points rest.
Proof.
  intros Hc H1. cbn [code_points]. rewrite H1.
  destruct (N.ltb_spec (N_of_ascii c) 192); [lia |].
  destruct (N.ltb_spec (N_of_ascii c) 224); [done | lia].
Qed.

Lemma code_points_3 (c c1 c2 : ascii) (x1 x2 : N) (rest : string) :
  224 <= N_of_ascii c < 240 ->
  continuation c1 = Some x1 -> continuation c2 = Some x2 ->
  code_points (String c (String c1 (String c2 rest)))
  = ((N_of_ascii c - 224) * 64 + x1) * 64 + x2 :: code_points rest.
Proof.
  intros Hc H1 H2. cbn [code_points]. rewrite H1, H2.
  destruct (N.ltb_spec (N_of_ascii c) 192); [lia |].
  destruct (N.ltb_spec (N_of_ascii c) 224); [lia |].
  destruct (N.ltb_spec (N_of_ascii c) 240); [done | lia].
Qed.

Lemma code_points_4 (c c1 c2 c3 : ascii) (x1 x2 x3 : N) (rest : string) :
  240 <= N_of_ascii c ->
  continuation c1 = Some x1 -> continuation c2 = Some x2 ->
  continuation c3 = Some x3 ->
  code_points (String c (String c1 (String c2 (String c3 rest))))
  = (((N_of_ascii c - 240) * 64 + x1) * 64 + x2) * 64 + x3 :: code_points rest.
Proof.
  intros Hc H1 H2 H3. cbn [code_points]. rewrite H1, H2, H3.
  destruct (N.ltb_spec (N_of_ascii c) 192); [lia |].
  destruct (N.ltb_spec (N_of_ascii c) 224); [lia |].
  destruct (N.ltb_spec (N_of_ascii c) 240); [lia | done].
Qed.

Lemma code_points_utf8_char (n : N) (rest : string) :
  n < 1114112 ->
  code_points (utf8_char n +:+ rest) = n :: code_points rest.
Proof.
  intros Hn. unfold utf8_char.
  destruct (N.ltb_spec n 128) as [H1 | H1].
  { assert (Hb := byte_of_N n ltac:(lia)).
    rewrite app_String, app_empty, code_points_1; rewrite Hb; [done | lia]. }
  destruct (N.ltb_spec n 2048) as [H2 | H2].
  { assert (Hb := byte_of_N (192 + n / 64) ltac:(lia)).
    rewrite !app_String, app_empty.
    rewrite (code_points_2 _ _ (n mod 64));
      [rewrite Hb; f_equal; lia | rewrite Hb; lia | apply continuation_byte; lia]. }
  destruct (N.ltb_spec n 65536) as [H3 | H3].
  { assert (Hb := byte_of_N (224 + n / 4096) ltac:(lia)).
    rewrite !app_String, app_empty.
    rewrite (code_points_3 _ _ _ (n / 64 mod 64) (n mod 64));
      [rewrite Hb; f_equal; lia | rewrite Hb; lia
      | apply continuation_byte; lia | apply continuation_byte; lia]. }
  assert (Hb := byte_of_N (240 + n / 262144) ltac:(lia)).
  rewrite !app_String, app_empty.
  rewrite (code_points_4 _ _ _ _ (n / 4096 mod 64) (n / 64 mod 64) (n mod 64));
    [rewrite Hb; f_equal; lia | rewrite Hb; lia | apply continuation_byte; lia
    | apply continuation_byte; lia | apply continuation_byte; lia].
Qed.

Lemma code_points_utf8 (cps : list N) :
  is_str cps = true -> code_points (utf8 cps) = cps.
Proof.
  induction cps as [| n cps IH]; [done |]. cbn [is_str forallb utf8].
  intros [Hn Hcps]%andb_prop. apply N.ltb_lt in Hn.
  rewrite code_points_utf8_char by done. f_equal. now apply IH.
Qed.

Lemma below_16 (d : N) (P : N -> Prop) :
  d < 16 ->
  P 0 -> P 1 -> P 2 -> P 3 -> P 4 -> P 5 -> P 6 -> P 7 ->
  P 8 -> P 9 -> P 10 -> P 11 -> P 12 -> P 13 -> P 14 -> P 15 -> P d.
Proof.
  intros Hd. assert (Hk : d = N.of_nat (N.to_nat d)) by lia.
  assert (Hlt : (N.to_nat d < 16)%nat) by lia.
  rewrite Hk. generalize dependent (N.to_nat d). intros k _ Hlt.
  do 16 (destruct k as [| k]; [cbn; tauto |]). lia.
Qed.

Lemma hex_value_digit (d : N) : d < 16 -> hex_value (hex_digit d) = Some d.
Proof.
  intros Hd. apply (below_16 d (fun d => hex_value (hex_digit d) = Some d) Hd);
    reflexivity.
Qed.


Lemma decode_hex4 (m : N) :
  m < 65536 ->
  decode_uXXXX (hex_digit (m / 4096 mod 16)) (hex_digit (m / 256 mod 16))
               (hex_digit (m / 16 mod 16)) (hex_digit (m mod 16)) = Some m.
Proof.
  intros Hm. unfold decode_uXXXX. rewrite !hex_value_digit by lia.
  f_equal. lia.
Qed.

Lemma escape_char_bmp (n : N) :
  256 <= n < 65536 -> escape_char n = "\u" +:+ hex4 n.
Proof.
  intros Hn. unfold escape_char.
  repeat (match goal with
          | |- context [N.eqb n ?k] => destruct (N.eqb_spec n k); [lia |]
          end).
  destruct (N.leb_spec 32 n); [| lia]. destruct (N.leb_spec n 126); [lia |].
  cbn [andb]. destruct (N.ltb_spec n 65536); [done | lia].
Qed.

Lemma escape_char_astral (n : N) :
  65536 <= n ->
  escape_char n =
    "\u" +:+ hex4 (55296 + (n - 65536) / 1024 mod 1024) +:+
    "\u" +:+ hex4 (56320 + (n - 65536) mod 1024).
Proof.
  intros Hn. unfold escape_char.
  repeat (match goal with
          | |- context [N.eqb n ?k] => destruct (N.eqb_spec n k); [lia |]
          end).
  destruct (N.leb_spec 32 n); [| lia]. destruct (N.leb_spec n 126); [lia |].
  cbn [andb]. destruct (N.ltb_spec n 65536); [lia | done].
Qed.


Ltac push_app := repeat (rewrite app_String || rewrite app_empty).

Lemma scanstring_u_alone (h1 h2 h3 h4 : ascii) (uni : N) (R : string) :
  decode_uXXXX h1 h2 h3 h4 = Some uni ->
  high_surrogate uni && continues_pair R = false ->
  scanstring (String "\" (String "u" (String h1 (String h2 (String h3 (String h4 R))))))
  = prepend (utf8_char uni) (scanstring R).
Proof.
  intros Hdec Hsafe.
  transitivity
    (match decode_uXXXX h1 h2 h3 h4 with
     | Some uni =>
         let alone := prepend (utf8_char uni) (scanstring R) in
         if high_surrogate uni then
           match R with
           | String "\" (String "u" escape2) =>
               match escape2 with
               | String g1 (String g2 (String g3 (String g4 rest''))) =>
                   match decode_uXXXX g1 g2 g3 g4 with
                   | Some uni2 =>
                       if low_surrogate uni2 then
                         prepend
                           (utf8_char (65536 + ((uni - 55296) * 1024 + (uni2 - 56320))))
                           (scanstring rest'')
                       else alone
                   | None => None
                   end
               | _ => None
               end
           | _ => alone
           end
         else alone
     | None => None
     end); [reflexivity |].
  rewrite Hdec. cbv zeta.
  destruct (high_surrogate uni); [| reflexivity].
  cbn [andb] in Hsafe.
  destruct R as [| c0 R0]; [reflexivity |].
  destruct c0 as [[] [] [] [] [] [] [] []]; try reflexivity.
  destruct R0 as [| c1 R1]; [reflexivity |].
  destruct c1 as [[] [] [] [] [] [] [] []]; try reflexivity.
  destruct R1 as [| g1 [| g2 [| g3 [| g4 R2]]]]; try discriminate Hsafe.
  cbn [continues_pair] in Hsafe.
  destruct (decode_uXXXX g1 g2 g3 g4) as [uni2 |]; [| discriminate Hsafe].
  now rewrite Hsafe.
Qed.

Lemma scanstring_u_pair (h1 h2 h3 h4 g1 g2 g3 g4 : ascii) (uni uni2 : N) (R : string) :
  decode_uXXXX h1 h2 h3 h4 = Some uni -> high_surrogate uni = true ->
  decode_uXXXX g1 g2 g3 g4 = Some uni2 -> low_surrogate uni2 = true ->
  scanstring (String "\" (String "u" (String h1 (String h2 (String h3 (String h4
             (String "\" (String "u" (String g1 (String g2 (String g3 (String g4 R))))))))))))
  = prepend (utf8_char (65536 + ((uni - 55296) * 1024 + (uni2 - 56320))))
            (scanstring R).
Proof.
  intros Hdec Hhigh Hdec2 Hlow.
  transitivity
    (match decode_uXXXX h1 h2 h3 h4 with
     | Some uni =>
         let alone :=
           prepend (utf8_char uni)
             (scanstring (String "\" (String "u" (String g1 (String g2 (String g3
                         (String g4 R))))))) in
         if high_surrogate uni then
           match decode_uXXXX g1 g2 g3 g4 with
           | Some uni2 =>
               if low_surrogate uni2 then
                 prepend
                   (utf8_char (65536 + ((uni - 55296) * 1024 + (uni2 - 56320))))
                   (scanstring R)
               else alone
           | None => None
           end
         else alone
     | None => None
     end); [reflexivity |].
  now rewrite Hdec, Hhigh, Hdec2, Hlow.
Qed.

Lemma continues_pair_escape_char (b : N) (R : string) :
  b < 1114112 -> low_surrogate b = false ->
  continues_pair (escape_char b +:+ R) = false.
Proof.
  intros Hb Hlow.
  destruct (N.lt_ge_cases b 256) as [Hsmall | Hbig].
  { clear Hlow. rewrite <- (byte_of_N b Hsmall). generalize (ascii_of_N b). clear.
    intros [[] [] [] [] [] [] [] []]; reflexivity. }
  destruct (N.lt_ge_cases b 65536) as [Hbmp | Hastral].
  - rewrite escape_char_bmp by lia. unfold hex4. push_app.
    cbn [continues_pair]. now rewrite decode_hex4.
  - rewrite escape_char_astral by lia. unfold hex4 at 1. push_app.
    cbn [continues_pair]. rewrite decode_hex4 by lia. unfold low_surrogate.
    destruct (N.leb_spec 56320 (55296 + (b - 65536) / 1024 mod 1024)); [lia | done].
Qed.

Lemma scanstring_escape_char (n : N) (R : string) :
  n < 1114112 ->
  high_surrogate n && continues_pair R = false ->
  scanstring (escape_char n +:+ R) = prepend (utf8_char n) (scanstring R).
Proof.
  intros Hn Hsafe.
  destruct (N.lt_ge_cases n 256) as [Hsmall | Hbig].
  { clear Hsafe. rewrite <- (byte_of_N n Hsmall). generalize (ascii_of_N n). clear.
    intros [[] [] [] [] [] [] [] []]; reflexivity. }
  destruct (N.lt_ge_cases n 65536) as [Hbmp | Hastral].
  - rewrite escape_char_bmp by lia. unfold hex4. push_app.
    apply scanstring_u_alone; [now apply decode_hex4 | exact Hsafe].
  - rewrite escape_char_astral by lia. unfold hex4. push_app.
    rewrite (scanstring_u_pair _ _ _ _ _ _ _ _
               (55296 + (n - 65536) / 1024 mod 1024) (56320 + (n - 65536) mod 1024)).
    + f_equal. f_equal. lia.
    + apply decode_hex4. lia.
    + unfold high_surrogate.
      destruct (N.leb_spec 55296 (55296 + (n - 65536) / 1024 mod 1024)); [| lia].
      destruct (N.leb_spec (55296 + (n - 65536) / 1024 mod 1024) 56319); [done | lia].
    + apply decode_hex4. lia.
    + unfold low_surrogate.
      destruct (N.leb_spec 56320 (56320 + (n - 65536) mod 1024)); [| lia].
      destruct (N.leb_spec (56320 + (n - 65536) mod 1024) 57343); [done | lia].
Qed.

Lemma scanstring_escape_all (cps : list N) (rest : string) :
  is_str cps = true -> unpaired cps = true ->
  scanstring (escape_all cps +:+ String dquote rest) = Some (utf8 cps, rest).
Proof.
  induction cps as [| n cps IH]; [reflexivity |].
  cbn [is_str forallb unpaired escape_all utf8].
  intros [Hn Hcps]%andb_prop [Hpair Hrest]%andb_prop. apply N.ltb_lt in Hn.
  rewrite app_assoc, scanstring_escape_char; [| exact Hn |].
  - rewrite (IH Hcps Hrest). reflexivity.
  - destruct cps as [| b cps']; [now destruct (high_surrogate n) |].
    cbn [escape_all]. rewrite app_assoc.
    cbn [is_str forallb] in Hcps. apply andb_prop in Hcps as [Hb _].
    apply N.ltb_lt in Hb.
    destruct (high_surrogate n); [| reflexivity]. cbn [andb] in *.
    apply negb_true_iff in Hpair.
    now apply continues_pair_escape_char.
Qed.

Lemma scanstring_escape (s rest : string) :
  is_text s ->
  scanstring (escape s +:+ String dquote rest) = Some (s, rest).
Proof.
  intros (cps & Hstr & Hpair & ->). unfold escape.
  rewrite code_points_utf8 by exact Hstr.
  now apply scanstring_escape_all.
Qed.

Lemma all_printable_app (a b : string) :
  all_printable (a +:+ b) = all_printable a && all_printable b.
Proof.
  induction a as [| x a IH]; [done |].
  rewrite app_String. cbn [all_printable]. rewrite IH. apply andb_assoc.
Qed.


Lemma one_line_is_text (s : string) : one_line s -> is_text s.
Proof.
  unfold one_line. induction s as [| c s IH]; [now exists [] |].
  cbn [all_printable]. intros [Hc Hs]%andb_prop.
  destruct (IH Hs) as (cps & Hstr & Hpair & ->).
  unfold printable in Hc. apply andb_prop in Hc as [_ Hc%N.leb_le].
  exists (N_of_ascii c :: cps). repeat split.
  - cbn [is_str forallb]. fold (is_str cps). rewrite Hstr.
    destruct (N.ltb_spec (N_of_ascii c) 1114112); [done | lia].
  - cbn [unpaired]. rewrite Hpair.
    assert (high_surrogate (N_of_ascii c) = false) as Hhigh.
    { unfold high_surrogate. destruct (N.leb_spec 55296 (N_of_ascii c)); [lia | done]. }
    rewrite Hhigh. now destruct cps.
  - cbn [utf8]. unfold utf8_char.
    destruct (N.ltb_spec (N_of_ascii c) 128); [| lia].
    now rewrite ascii_N_embedding.
Qed.

Lemma digit_char_printable (n : N) : printable (digit_char n) = true.
Proof.
  unfold printable, digit_char. rewrite byte_of_N by lia.
  destruct (N.leb_spec 32 (48 + n mod 10)); [| lia].
  destruct (N.leb_spec (48 + n mod 10) 126); [done | lia].
Qed.

Lemma zero_padded_one_line (width : nat) (n : N) (acc : string) :
  one_line acc -> one_line (zero_padded width n acc).
Proof.
  unfold one_line. revert n acc.
  induction width as [| w IH]; intros n acc Hacc; [exact Hacc |].
  cbn [zero_padded]. apply IH. cbn [all_printable].
  now rewrite digit_char_printable.
Qed.

Lemma one_line_cons (c : ascii) (s : string) :
  printable c = true -> one_line s -> one_line (String c s).
Proof. unfold one_line. cbn [all_printable]. now intros -> ->. Qed.

Lemma isoformat_one_line (t : datetime) : one_line (isoformat t).
Proof.
  unfold isoformat.
  do 5 (apply zero_padded_one_line; apply one_line_cons; [reflexivity |]).
  apply zero_padded_one_line.
  unfold one_line. rewrite all_printable_app.
  apply andb_true_intro. split; [| reflexivity].
  destruct (N.eqb (microsecond t) 0); [reflexivity |].
  apply (one_line_cons "."); [reflexivity |].
  now apply zero_padded_one_line.
Qed.

Lemma one_line_no_newline (text : string) :
  one_line text -> ¬ In newline (list_ascii_of_string text).
Proof.
  unfold one_line. induction text as [| c text IH]; simpl; [tauto |].
  intros [Hc Htext]%andb_prop [Heq | Hin]; [| now apply IH].
  now rewrite Heq in Hc.
Qed.

Ltac Zify.zify_post_hook ::= idtac.

End TextFacts.

(** ** The event stream *)
Section StreamFacts.
Context `{Packages}.
Import Json.

Lemma skip_ws_other (c : ascii) (s : string) :
  is_ws c = false -> skip_ws (String c s) = String c s.
Proof. intros Hc. cbn [skip_ws]. now rewrite Hc. Qed.

Lemma scan_once_string (fuel : nat) (s rest : string) :
  is_text s ->
  scan_once (S fuel) (String dquote (escape s +:+ String dquote rest))
  = Some (JString s, rest).
Proof.
  intros Hs.
  transitivity (match scanstring (escape s +:+ String dquote rest) with
                | Some (text, after) => Some (JString text, after)
                | None => None
                end); [reflexivity |].
  now rewrite scanstring_escape.
Qed.

Lemma scan_once_object (fuel : nat) (rest : string) :
  scan_once (S fuel) (String "{" (String dquote rest))
  = JSONObject_loop (scan_once fuel) fuel rest [].
Proof. reflexivity. Qed.

Lemma scan_once_zero (fuel : nat) (rest : string) :
  scan_once (S fuel) (String "0" (String "," rest)) = Some (JInt 0, String "," rest).
Proof. reflexivity. Qed.

(** One turn of the loop over the members of an object: a key, the colon
    and a value, followed by a comma and the next key ... *)
Lemma JSONObject_loop_more (scan : string -> option (json * string))
    (fuel : nat) (key : string) (c : ascii) (text : string) (value : json)
    (rest : string) (pairs : list (string * json)) :
  is_text key ->
  is_ws c = false ->
  scan (String c text) = Some (value, String "," (String " " (String dquote rest))) ->
  JSONObject_loop scan (S fuel)
    (escape key +:+ String dquote (String ":" (String " " (String c text)))) pairs
  = JSONObject_loop scan fuel rest (dict_set pairs key value).
Proof.
  intros Hkey Hc Hscan. cbn [JSONObject_loop]. rewrite scanstring_escape by exact Hkey.
  rewrite (skip_ws_other ":") by reflexivity.
  change (skip_ws (String " " (String c text))) with (skip_ws (String c text)).
  rewrite (skip_ws_other c) by exact Hc. now rewrite Hscan.
Qed.

(** ... or by the closing brace. *)
Lemma JSONObject_loop_last (scan : string -> option (json * string))
    (fuel : nat) (key : string) (c : ascii) (text : string) (value : json)
    (rest : string) (pairs : list (string * json)) :
  is_text key ->
  is_ws c = false ->
  scan (String c text) = Some (value, String "}" rest) ->
  JSONObject_loop scan (S fuel)
    (escape key +:+ String dquote (String ":" (String " " (String c text)))) pairs
  = Some (JObject (dict_set pairs key value), rest).
Proof.
  intros Hkey Hc Hscan. cbn [JSONObject_loop]. rewrite scanstring_escape by exact Hkey.
  rewrite (skip_ws_other ":") by reflexivity.
  change (skip_ws (String " " (String c text))) with (skip_ws (String c text)).
  rewrite (skip_ws_other c) by exact Hc. now rewrite Hscan.
Qed.

Ltac flatten_text :=
  cbn [dumps map join fst snd]; unfold encode_basestring_ascii;
  change (int_repr 0) with "0";
  repeat (rewrite app_String || rewrite app_empty || rewrite app_assoc).

Ltac plain_text := apply one_line_is_text; reflexivity.


(** ... and [loads] reads it back from the line, when in none of the
    four texts a low surrogate follows a high one. *)
Lemma loads_event (v_run_id v_type v_time v_message : string) :
  is_text v_run_id -> is_text v_type -> is_text v_time -> is_text v_message ->
  loads (dumps (JObject [
      ("run_id", JString v_run_id);
      ("seq", JInt 0);
      ("type", JString v_type);
      ("time", JString v_time);
      ("data", JObject [("message", JString v_message)])])
    +:+ String newline EmptyString)
  = Some (JObject [
      ("run_id", JString v_run_id);
      ("seq", JInt 0);
      ("type", JString v_type);
      ("time", JString v_time);
      ("data", JObject [("message", JString v_message)])]).
Proof.
  intros Hid Htype Htime Hmessage.
  flatten_text. unfold loads.
  match goal with
  | |- context [String.length (String "{" (String dquote (escape "run_id" +:+ ?rest)))] =>
      assert (Hfuel : ∃ n, String.length
                (String "{" (String dquote (escape "run_id" +:+ rest)))
              = S (S (S (S (S (S n))))))
        by (eexists; reflexivity)
  end.
  destruct Hfuel as [n ->].
  rewrite (skip_ws_other "{") by reflexivity.
  rewrite scan_once_object.
  erewrite JSONObject_loop_more;
    [| plain_text | reflexivity | now apply scan_once_string].
  erewrite JSONObject_loop_more; [| plain_text | reflexivity | apply scan_once_zero].
  erewrite JSONObject_loop_more;
    [| plain_text | reflexivity | now apply scan_once_string].
  erewrite JSONObject_loop_more;
    [| plain_text | reflexivity | now apply scan_once_string].
  erewrite JSONObject_loop_last; [| plain_text | reflexivity |].
  2: { rewrite scan_once_object.
       erewrite JSONObject_loop_last;
         [| plain_text | reflexivity | now apply scan_once_string].
       reflexivity. }
  reflexivity.
Qed.


End StreamFacts.



(** * Further properties *)

(** ** [normalize_base_url] *)
Section UrlFacts.

Lemma rstrip_slash_slashes (n : nat) : rstrip_slash (slashes n) = EmptyString.
Proof. induction n as [| n IH]; [done |]. cbn [slashes rstrip_slash]. now rewrite IH. Qed.

Lemma rstrip_slash_app_slashes (s : string) (n : nat) :
  rstrip_slash (s +:+ slashes n) = rstrip_slash s.
Proof.
  induction s as [| c s IH]; [apply rstrip_slash_slashes |].
  rewrite app_String. cbn [rstrip_slash]. now rewrite IH.
Qed.

Lemma ends_with_tail (suffix : string) (c : ascii) (s : string) :
  ends_with suffix s -> ends_with suffix (String c s).
Proof. intros [front ->]. now exists (String c front). Qed.

Lemma rstrip_slash_fixed (s : string) :
  ¬ ends_with "/" s -> rstrip_slash s = s.
Proof.
  induction s as [| c s IH]; [done |]. intros Hend. cbn [rstrip_slash].
  rewrite IH by (intros Hs; apply Hend, ends_with_tail, Hs).
  destruct s as [| d s]; [| done].
  destruct (Ascii.eqb_spec c slash) as [-> | _]; [| done].
  destruct Hend. now exists EmptyString.
Qed.

Lemma rstrip_slash_v1 (base : string) :
  rstrip_slash (base +:+ "/v1") = base +:+ "/v1".
Proof.
  induction base as [| c base IH]; [done |].
  rewrite app_String. cbn [rstrip_slash]. rewrite IH. now destruct base.
Qed.

Lemma length_app (a b : string) :
  String.length (a +:+ b) = (String.length a + String.length b)%nat.
Proof.
  induction a as [| x a IH]; [done |].
  rewrite app_String. cbn [String.length]. now rewrite IH.
Qed.

Lemma strip_v1_unfold (c : ascii) (s : string) :
  strip_v1 (String c s) =
    if String.eqb (String c s) "/v1" then EmptyString else String c (strip_v1 s).
Proof. reflexivity. Qed.

Lemma strip_v1_app (base : string) : strip_v1 (base +:+ "/v1") = base.
Proof.
  induction base as [| c base IH]; [done |].
  rewrite app_String, strip_v1_unfold, IH.
  destruct (String.eqb_spec (String c (base +:+ "/v1")) "/v1") as [Heq | _]; [| done].
  apply (f_equal String.length) in Heq. cbn [String.length] in Heq.
  assert (Hlen := length_app base "/v1").
  rewrite Hlen in Heq. cbn in Heq. lia.
Qed.

Lemma strip_v1_fixed (s : string) :
  ¬ ends_with "/v1" s -> strip_v1 s = s.
Proof.
  induction s as [| c s IH]; [done |]. intros Hend.
  rewrite strip_v1_unfold, IH by (intros Hs; apply Hend, ends_with_tail, Hs).
  destruct (String.eqb_spec (String c s) "/v1") as [Heq | _]; [| done].
  destruct Hend. exists EmptyString. exact Heq.
Qed.

Lemma rstrip_slash_split (url : string) :
  ∃ n, url = rstrip_slash url +:+ slashes n.
Proof.
  induction url as [| c url [n IH]]; [now exists 0%nat |].
  cbn [rstrip_slash]. destruct (rstrip_slash url) as [| d rest].
  - destruct (Ascii.eqb_spec c slash) as [-> | _].
    + exists (S n). now rewrite IH.
    + exists n. now rewrite IH.
  - exists n. now rewrite IH.
Qed.

Lemma strip_v1_split (s : string) :
  s = strip_v1 s ∨ s = strip_v1 s +:+ "/v1".
Proof.
  induction s as [| c s IH]; [now left |].
  rewrite strip_v1_unfold.
  destruct (String.eqb_spec (String c s) "/v1") as [Heq | _]; [now right |].
  destruct IH as [IH | IH]; [left | right]; [| rewrite app_String]; now rewrite <- IH.
Qed.

(** A suffix is read off the end of the text. *)
Lemma ends_with_substring (suffix s : string) :
  ends_with suffix s ->
  String.substring (String.length s - String.length suffix)
                   (String.length suffix) s = suffix.
Proof.
  intros [front ->]. rewrite length_app.
  replace (String.length front + String.length suffix - String.length suffix)%nat
    with (String.length front) by lia.
  induction front as [| c front IH].
  - rewrite app_empty. cbn [String.length].
    induction suffix as [| c suffix IH]; [done |].
    cbn [String.length substring]. now rewrite IH.
  - rewrite app_String. cbn [String.length substring]. exact IH.
Qed.

(** X1.  A trailing [/v1], with any number of slashes after it, is cut
    off, and what stands in front of it is returned as it is. *)
Theorem normalize_base_url_v1 (base : string) (n : nat) :
  normalize_base_url (base +:+ "/v1" +:+ slashes n) = base.
Proof.
  unfold normalize_base_url.
  rewrite <- app_assoc, rstrip_slash_app_slashes, rstrip_slash_v1.
  apply strip_v1_app.
Qed.

(** X2.  A URL that ends neither in a slash nor in [/v1] is returned
    as it is, and so it is with any number of slashes after it. *)
Theorem normalize_base_url_plain (base : string) (n : nat) :
  ¬ ends_with "/" base ->
  ¬ ends_with "/v1" base ->
  normalize_base_url (base +:+ slashes n) = base.
Proof.
  intros Hslash Hv1. unfold normalize_base_url.
  rewrite rstrip_slash_app_slashes, (rstrip_slash_fixed base Hslash).
  now apply strip_v1_fixed.
Qed.

(** X3.  The result is the URL without an end of it, and that end is a
    run of slashes, after [/v1] or not. *)
Theorem normalize_base_url_prefix (url : string) :
  ∃ n, url = normalize_base_url url +:+ slashes n ∨
       url = normalize_base_url url +:+ "/v1" +:+ slashes n.
Proof.
  unfold normalize_base_url.
  destruct (rstrip_slash_split url) as [n Hn]. exists n.
  destruct (strip_v1_split (rstrip_slash url)) as [Hs | Hs].
  - left. now rewrite <- Hs.
  - right. now rewrite <- app_assoc, <- Hs.
Qed.

End UrlFacts.

Lemma normalize_base_url_plain_witness :
  ¬ ends_with "/" "http://coordinator.test" ∧
  ¬ ends_with "/v1" "http://coordinator.test" ∧
  normalize_base_url ("http://coordinator.test" +:+ slashes 2) = "http://coordinator.test".
Proof.
  assert (H1 : ¬ ends_with "/" "http://coordinator.test")
    by (intros Hend; apply ends_with_substring in Hend; discriminate).
  assert (H2 : ¬ ends_with "/v1" "http://coordinator.test")
    by (intros Hend; apply ends_with_substring in Hend; discriminate).
  split; [exact H1 |]. split; [exact H2 |].
  exact (normalize_base_url_plain "http://coordinator.test" 2 H1 H2).
Defined.

(** ** Construction and the choice of the mode *)
Section ConstructionFacts.
Context `{Packages}.

Lemma truthy_Some (x : option string) (s : string) :
  x = Some s -> s ≠ EmptyString -> truthy x = Some s.
Proof. intros -> Hs. now destruct s. Qed.

(** X4.  A gateway is built without coordinator exactly when no adapter
    is passed, the URL argument is missing or empty, and the variable
    [ARP_RUN_COORDINATOR_URL] is missing or empty. *)
Theorem init_local_iff (run_coordinator : option RunCoordinatorGatewayClient)
    (url token : option string) (name version : string)
    (environ : gmap string string) :
  _run_coordinator
    (Gateway.__init__ run_coordinator url token name version environ) = None
  ↔ run_coordinator = None ∧
    (url = None ∨ url = Some EmptyString) ∧
    (environ !! "ARP_RUN_COORDINATOR_URL" = None ∨
     environ !! "ARP_RUN_COORDINATOR_URL" = Some EmptyString).
Proof.
  unfold Gateway.__init__, run_coordinator_url_from_env.
  destruct run_coordinator as [c |]; [split; [discriminate | now intros [[=] _]] |].
  destruct url as [[| a u] |]; cbn [truthy];
    destruct (environ !! "ARP_RUN_COORDINATOR_URL") as [[| b e] |]; cbn [truthy];
    split; try discriminate; try (intros _; repeat split; auto; fail);
    intros (_ & [Hu | Hu] & [He | He]); discriminate.
Qed.

(** X5.  A non-empty URL argument decides the base URL, whatever the
    environment holds: the adapter is built on the normalized argument. *)
Theorem init_url_argument (url : string) (token : option string)
    (name version : string) (environ : gmap string string) :
  url ≠ EmptyString ->
  ∃ coordinator,
    _run_coordinator
      (Gateway.__init__ None (Some url) token name version environ)
      = Some coordinator ∧
    base_url coordinator = normalize_base_url url.
Proof.
  intros Hurl. unfold Gateway.__init__.
  rewrite (truthy_Some (Some url) url eq_refl Hurl).
  eexists. split; reflexivity.
Qed.

(** X6.  Without URL argument, a non-empty [ARP_RUN_COORDINATOR_URL]
    decides the base URL, and it is normalized twice on the way: once
    when it is read and once when the adapter is built. *)
Theorem init_url_environment (url token : option string)
    (name version : string) (environ : gmap string string) (value : string) :
  url = None ∨ url = Some EmptyString ->
  environ !! "ARP_RUN_COORDINATOR_URL" = Some value ->
  value ≠ EmptyString ->
  ∃ coordinator,
    _run_coordinator (Gateway.__init__ None url token name version environ)
      = Some coordinator ∧
    base_url coordinator = normalize_base_url (normalize_base_url value).
Proof.
  intros Hurl Henv Hvalue. unfold Gateway.__init__, run_coordinator_url_from_env.
  assert (truthy url = None) as -> by (destruct Hurl as [-> | ->]; reflexivity).
  rewrite (truthy_Some _ value Henv Hvalue).
  eexists. split; reflexivity.
Qed.

(** X7.  So a URL that ends in [/v1/v1] loses one [/v1] as an argument
    and both when it comes from the environment. *)
Theorem init_v1_twice (base : string) (token : option string)
    (name version : string) (environ : gmap string string) :
  (∃ coordinator,
     _run_coordinator
       (Gateway.__init__ None (Some (base +:+ "/v1/v1")) token name version environ)
       = Some coordinator ∧
     base_url coordinator = base +:+ "/v1") ∧
  (∃ coordinator,
     _run_coordinator
       (Gateway.__init__ None None token name version
          (<["ARP_RUN_COORDINATOR_URL" := base +:+ "/v1/v1"]> environ))
       = Some coordinator ∧
     base_url coordinator = base).
Proof.
  assert (Hne : truthy (Some (base +:+ "/v1/v1")) = Some (base +:+ "/v1/v1"))
    by now destruct base.
  assert (Hcut : ∀ front, normalize_base_url (front +:+ "/v1") = front).
  { intros front. unfold normalize_base_url.
    rewrite rstrip_slash_v1. apply strip_v1_app. }
  assert (Hone : normalize_base_url (base +:+ "/v1/v1") = base +:+ "/v1").
  { change "/v1/v1" with ("/v1" +:+ "/v1"). rewrite <- app_assoc. apply Hcut. }
  unfold Gateway.__init__, run_coordinator_url_from_env. split.
  - rewrite Hne. eexists. split; [reflexivity |]. exact Hone.
  - cbn [truthy]. rewrite lookup_insert_eq, Hne.
    eexists. split; [reflexivity |].
    cbn [Adapter.__init__ base_url]. rewrite Hone. apply Hcut.
Qed.

(** X8.  When the gateway builds the adapter itself, the client gets the
    token argument if that is not empty, else the value of
    [ARP_RUN_COORDINATOR_BEARER_TOKEN] if that is not empty, else none. *)
Theorem init_bearer_token (url token : option string) (name version : string)
    (environ : gmap string string) (coordinator : RunCoordinatorGatewayClient) :
  _run_coordinator (Gateway.__init__ None url token name version environ)
    = Some coordinator ->
  _client coordinator =
    new_RunCoordinatorClient (base_url coordinator)
      match token with
      | Some (String c t) => Some (String c t)
      | _ =>
          match environ !! "ARP_RUN_COORDINATOR_BEARER_TOKEN" with
          | Some (String c t) => Some (String c t)
          | _ => None
          end
      end.
Proof.
  unfold Gateway.__init__, run_coordinator_bearer_token_from_env.
  destruct (match truthy url with
            | Some u => Some u
            | None => run_coordinator_url_from_env environ
            end) as [resolved |]; [| discriminate].
  intros [= <-]. cbn [Adapter.__init__ _client base_url].
  f_equal. destruct token as [[| c t] |]; cbn [truthy]; try reflexivity;
    now destruct (environ !! "ARP_RUN_COORDINATOR_BEARER_TOKEN") as [[| d e] |].
Qed.

End ConstructionFacts.

Lemma init_url_argument_witness :
  "http://coordinator.test/v1/" ≠ EmptyString ∧
  ∃ coordinator,
    _run_coordinator
      (Gateway.__init__ (H := Demo.packages) None (Some "http://coordinator.test/v1/")
         None "gateway" "0.1.0"
         {["ARP_RUN_COORDINATOR_URL" := "http://elsewhere.test"]})
      = Some coordinator ∧
    base_url coordinator = normalize_base_url "http://coordinator.test/v1/".
Proof.
  assert (Hne : "http://coordinator.test/v1/" ≠ EmptyString) by discriminate.
  split; [exact Hne |].
  exact (init_url_argument (H := Demo.packages) "http://coordinator.test/v1/" None
           "gateway" "0.1.0" {["ARP_RUN_COORDINATOR_URL" := "http://elsewhere.test"]}
           Hne).
Defined.

Lemma init_url_environment_witness :
  let environ : gmap string string :=
    {["ARP_RUN_COORDINATOR_URL" := "http://coordinator.test/v1/v1/"]} in
  ((None : option string) = None ∨ None = Some EmptyString) ∧
  environ !! "ARP_RUN_COORDINATOR_URL" = Some "http://coordinator.test/v1/v1/" ∧
  "http://coordinator.test/v1/v1/" ≠ EmptyString ∧
  ∃ coordinator,
    _run_coordinator
      (Gateway.__init__ (H := Demo.packages) None None None "gateway" "0.1.0" environ)
      = Some coordinator ∧
    base_url coordinator =
      normalize_base_url (normalize_base_url "http://coordinator.test/v1/v1/").
Proof.
  intros environ.
  assert (Hne : "http://coordinator.test/v1/v1/" ≠ EmptyString) by discriminate.
  split; [now left |]. split; [reflexivity |]. split; [exact Hne |].
  exact (init_url_environment (H := Demo.packages) None None "gateway" "0.1.0" environ
           "http://coordinator.test/v1/v1/" (or_introl eq_refl) eq_refl Hne).
Defined.

Lemma init_bearer_token_witness :
  let environ : gmap string string :=
    {["ARP_RUN_COORDINATOR_BEARER_TOKEN" := "from-env"]} in
  let coordinator :=
    Adapter.__init__ (H := Demo.packages) "http://coordinator.test" (Some "from-env") None in
  _run_coordinator
    (Gateway.__init__ (H := Demo.packages) None (Some "http://coordinator.test/")
       (Some EmptyString) "gateway" "0.1.0" environ)
    = Some coordinator ∧
  _client coordinator =
    new_RunCoordinatorClient (Packages := Demo.packages) (base_url coordinator)
      (Some "from-env").
Proof.
  intros environ coordinator. split; [reflexivity |].
  exact (init_bearer_token (H := Demo.packages) (Some "http://coordinator.test/")
           (Some EmptyString) "gateway" "0.1.0" environ coordinator eq_refl).
Defined.

(** ** What the calls keep *)
Section StepFacts.
Context `{Packages}.

Lemma not_terminal_running (st : RunState) :
  st ∉ [succeeded; failed; canceled] -> st = running.
Proof.
  intros Hnot. destruct st; [reflexivity | | |]; destruct Hnot;
    rewrite !elem_of_cons; auto.
Qed.

Lemma proxied_frame (self : RunGateway) (result : outcome Run) :
  _runs (Gateway.proxied self result).2 = _runs self ∧
  _run_coordinator (Gateway.proxied self result).2 = _run_coordinator self ∧
  _service_name (Gateway.proxied self result).2 = _service_name self ∧
  _service_version (Gateway.proxied self result).2 = _service_version self ∧
  ∃ more, objects (Gateway.proxied self result).2 = objects self ++ more.
Proof.
  destruct result as [run | exc]; cbn; repeat split; eauto.
  exists []. now rewrite app_nil_r.
Qed.

Lemma step_frame (self self' : RunGateway) :
  step self self' ->
  _run_coordinator self' = _run_coordinator self ∧
  _service_name self' = _service_name self ∧
  _service_version self' = _service_version self ∧
  ∃ more, objects self' = objects self ++ more.
Proof.
  assert (Hsame : ∀ g, _run_coordinator g = _run_coordinator g ∧
                  _service_name g = _service_name g ∧
                  _service_version g = _service_version g ∧
                  ∃ more, objects g = objects g ++ more)
    by (intros g; repeat split; exists []; now rewrite app_nil_r).
  intros [g body u1 u2 t | g id | g id t result g' Hcancel].
  - unfold Gateway.start_run.
    destruct (_run_coordinator g) as [c |] eqn:Hc; rewrite <- Hc.
    { apply proxied_frame. }
    case_decide; [apply Hsame |]. cbn. repeat split; eauto.
  - unfold Gateway.get_run.
    destruct (_run_coordinator g) as [c |] eqn:Hc; rewrite <- Hc.
    { apply proxied_frame. }
    apply Hsame.
  - revert Hcancel. unfold Gateway.cancel_run, Gateway._get_local_run.
    destruct (_run_coordinator g) as [c |] eqn:Hc; rewrite <- Hc.
    { intros [= Hp].
      replace g' with (Gateway.proxied g (Adapter.cancel_run c id)).2
        by now rewrite Hp.
      apply proxied_frame. }
    destruct (_runs g !! id) as [r |]; [| intros [= _ <-]; apply Hsame].
    destruct (objects g !! r) as [run |]; [| discriminate].
    case_bool_decide; [intros [= _ <-]; apply Hsame |].
    cbn. intros [= _ <-]. cbn. repeat split; eauto.
Qed.

Lemma step_wf (self self' : RunGateway) : step self self' -> wf self -> wf self'.
Proof.
  intros [g body u1 u2 t | g id | g id t result g' Hcancel] Hwf.
  - now apply wf_start_run.
  - now apply wf_get_run.
  - exact (wf_cancel_run _ _ _ _ _ Hwf Hcancel).
Qed.

Lemma step_reachable (self self' : RunGateway) :
  step self self' -> reachable self -> reachable self'.
Proof.
  intros [g body u1 u2 t | g id | g id t result g' Hcancel] Hreach.
  - now apply reachable_start_run.
  - now apply reachable_get_run.
  - exact (reachable_cancel_run _ _ _ _ _ Hreach Hcancel).
Qed.

Lemma steps_reachable (self self' : RunGateway) :
  reachable self -> steps self self' -> reachable self'.
Proof.
  intros Hreach Hsteps. induction Hsteps as [| g1 g2 g3 Hstep _ IH]; [done |].
  apply IH. exact (step_reachable _ _ Hstep Hreach).
Qed.

(** The run stored under an identifier, one call later: it is the same
    object, or the canceled copy of a run that was running. *)
Lemma step_stored (self self' : RunGateway) (id : string) (r : ref) (run : Run) :
  step self self' -> wf self ->
  _runs self !! id = Some r -> objects self !! r = Some run ->
  ∃ r' run',
    _runs self' !! id = Some r' ∧ objects self' !! r' = Some run' ∧
    ((r' = r ∧ run' = run) ∨
     (state run = running ∧ ∃ time, run' = Gateway.model_copy run canceled time)).
Proof.
  intros Hstep.
  destruct Hstep as [g body u1 u2 t | g id0 | g id0 t result g' Hcancel];
    intros Hwf Hr Hrun;
    assert (Hkeep : ∀ g1, _runs g1 = _runs g ->
              (∃ more, objects g1 = objects g ++ more) ->
              ∃ r' run', _runs g1 !! id = Some r' ∧ objects g1 !! r' = Some run' ∧
                ((r' = r ∧ run' = run) ∨
                 (state run = running ∧
                  ∃ time, run' = Gateway.model_copy run canceled time)))
      by (intros g1 Hruns [more Hobj]; exists r, run; rewrite Hruns, Hobj;
          split; [done |]; split; [now apply lookup_app_l_Some | now left]);
    assert (Hrefl : ∃ more, objects g = objects g ++ more)
      by (exists []; now rewrite app_nil_r).
  - unfold Gateway.start_run. destruct (_run_coordinator g) as [c |].
    { apply Hkeep; apply proxied_frame. }
    case_decide as Hin; [now apply Hkeep |].
    cbn. exists r, run. split; [| split; [now apply lookup_app_l_Some | now left]].
    rewrite lookup_insert_ne; [done |].
    intros Heq. rewrite Heq in Hin. apply Hin. eauto.
  - unfold Gateway.get_run. destruct (_run_coordinator g) as [c |].
    { apply Hkeep; apply proxied_frame. }
    now apply Hkeep.
  - revert Hcancel. unfold Gateway.cancel_run, Gateway._get_local_run.
    destruct (_run_coordinator g) as [c |].
    { intros [= Hp].
      replace g' with (Gateway.proxied g (Adapter.cancel_run c id0)).2
        by now rewrite Hp.
      apply Hkeep; apply proxied_frame. }
    destruct (_runs g !! id0) as [r0 |] eqn:Hr0; [| intros [= _ <-]; now apply Hkeep].
    destruct (objects g !! r0) as [run0 |] eqn:Hrun0; [| discriminate].
    case_bool_decide as Hterminal; [intros [= _ <-]; now apply Hkeep |].
    cbn. intros [= _ <-]. cbn.
    destruct (Hwf id0 r0 Hr0) as (_ & run0' & Hrun0' & Hid0).
    assert (run0' = run0) as -> by congruence.
    rewrite Hid0. destruct (decide (id0 = id)) as [-> | Hne].
    + assert (r0 = r) as -> by congruence.
      assert (run0 = run) as -> by congruence.
      exists (length (objects g)), (Gateway.model_copy run canceled t).
      rewrite lookup_insert_eq. split; [done |]. split.
      { rewrite lookup_app_r by lia. now rewrite Nat.sub_diag. }
      right. split; [| eauto].
      now apply not_terminal_running.
    + exists r, run. rewrite lookup_insert_ne by done.
      split; [done |]. split; [now apply lookup_app_l_Some | now left].
Qed.

(** The run stored under an identifier, one call earlier: it was there
    already, or it is the canceled copy of the run that was there, or it
    has just been started. *)
Lemma step_stored_back (self self' : RunGateway) (id : string) (r' : ref)
    (run' : Run) :
  step self self' -> wf self ->
  _runs self' !! id = Some r' -> objects self' !! r' = Some run' ->
  (_runs self !! id = Some r' ∧ objects self !! r' = Some run') ∨
  (∃ r run time, _runs self !! id = Some r ∧ objects self !! r = Some run ∧
     state run = running ∧ run' = Gateway.model_copy run canceled time) ∨
  (_runs self !! id = None ∧ state run' = running ∧ ended_at run' = None).
Proof.
  intros Hstep.
  destruct Hstep as [g body u1 u2 t | g id0 | g id0 t result g' Hcancel];
    intros Hwf;
    assert (Hkeep : ∀ g1, _runs g1 = _runs g ->
              (∃ more, objects g1 = objects g ++ more) ->
              _runs g1 !! id = Some r' -> objects g1 !! r' = Some run' ->
              _runs g !! id = Some r' ∧ objects g !! r' = Some run')
      by (intros g1 Hruns [more Hobj] Hr' Hrun'; rewrite Hruns in Hr';
          split; [done |];
          destruct (Hwf id r' Hr') as (_ & run & Hrun & _);
          rewrite Hobj, (lookup_app_l_Some _ _ _ _ Hrun) in Hrun'; congruence);
    assert (Hrefl : ∃ more, objects g = objects g ++ more)
      by (exists []; now rewrite app_nil_r).
  - unfold Gateway.start_run. destruct (_run_coordinator g) as [c |].
    { intros Hr' Hrun'. left. revert Hr' Hrun'. apply Hkeep; apply proxied_frame. }
    case_decide as Hin; [intros Hr' Hrun'; left; now apply (Hkeep g) |].
    cbn. set (new_id := str_or (req_run_id body) ("run_" +:+ u1)) in *.
    destruct (decide (new_id = id)) as [<- | Hne].
    + rewrite lookup_insert_eq. intros [= <-].
      rewrite lookup_app_r by lia. rewrite Nat.sub_diag. intros [= <-].
      right; right. split; [| done].
      destruct (_runs g !! new_id) eqn:Hfree; [| done]. destruct Hin. eauto.
    + rewrite lookup_insert_ne by done. intros Hr' Hrun'. left. split; [done |].
      destruct (Hwf id r' Hr') as (_ & run & Hrun & _).
      rewrite (lookup_app_l_Some _ _ _ _ Hrun) in Hrun'. congruence.
  - unfold Gateway.get_run. destruct (_run_coordinator g) as [c |].
    { intros Hr' Hrun'. left. revert Hr' Hrun'. apply Hkeep; apply proxied_frame. }
    intros Hr' Hrun'. left. now apply (Hkeep g).
  - revert Hcancel. unfold Gateway.cancel_run, Gateway._get_local_run.
    destruct (_run_coordinator g) as [c |].
    { intros [= Hp] Hr' Hrun'. left. revert Hr' Hrun'.
      replace g' with (Gateway.proxied g (Adapter.cancel_run c id0)).2
        by now rewrite Hp.
      apply Hkeep; apply proxied_frame. }
    destruct (_runs g !! id0) as [r0 |] eqn:Hr0;
      [| intros [= _ <-] Hr' Hrun'; left; now apply (Hkeep g)].
    destruct (objects g !! r0) as [run0 |] eqn:Hrun0; [| discriminate].
    case_bool_decide as Hterminal;
      [intros [= _ <-] Hr' Hrun'; left; now apply (Hkeep g) |].
    cbn. intros [= _ <-]. cbn.
    destruct (Hwf id0 r0 Hr0) as (_ & run0' & Hrun0' & Hid0).
    assert (run0' = run0) as -> by congruence.
    rewrite Hid0. destruct (decide (id0 = id)) as [-> | Hne].
    + rewrite lookup_insert_eq. intros [= <-].
      rewrite lookup_app_r by lia. rewrite Nat.sub_diag. intros [= <-].
      right; left. exists r0, run0, t. repeat split; try done.
      now apply not_terminal_running.
    + rewrite lookup_insert_ne by done. intros Hr' Hrun'. left. split; [done |].
      destruct (Hwf id r' Hr') as (_ & run & Hrun & _).
      rewrite (lookup_app_l_Some _ _ _ _ Hrun) in Hrun'. congruence.
Qed.

End StepFacts.

(** ** Invariants of the gateway *)
Section InvariantFacts.
Context `{Packages}.

(** X9.  The mode is fixed at construction: no sequence of calls changes
    the coordinator of a gateway, nor what [version] reports. *)
Theorem mode_is_fixed (self self' : RunGateway) :
  steps self self' ->
  _run_coordinator self' = _run_coordinator self ∧
  Gateway.version self' = Gateway.version self.
Proof.
  intros Hsteps. induction Hsteps as [g | g1 g2 g3 Hstep _ [IHc IHv]]; [done |].
  destruct (step_frame g1 g2 Hstep) as (Hc & Hn & Hv & _).
  rewrite IHc, IHv. split; [done |].
  unfold Gateway.version. now rewrite Hn, Hv.
Qed.

(** X10.  A [Run] object, once built, is never changed: whatever calls
    follow, each reference leads to the content it led to. *)
Theorem objects_never_change (self self' : RunGateway) (r : ref) (run : Run) :
  steps self self' ->
  objects self !! r = Some run ->
  objects self' !! r = Some run.
Proof.
  intros Hsteps. induction Hsteps as [g | g1 g2 g3 Hstep _ IH]; [done |].
  intros Hrun. apply IH.
  destruct (step_frame g1 g2 Hstep) as (_ & _ & _ & more & ->).
  now apply lookup_app_l_Some.
Qed.

(** X11.  A gateway with a coordinator holds no runs of its own. *)
Theorem proxy_holds_no_runs (self : RunGateway) :
  reachable self ->
  is_Some (_run_coordinator self) ->
  _runs self = ∅.
Proof.
  assert (Hstep : ∀ g g', step g g' -> is_Some (_run_coordinator g) ->
            _runs g' = _runs g).
  { intros g g' [g0 body u1 u2 t | g0 id | g0 id t result g1 Hcancel] [c Hc].
    - unfold Gateway.start_run. rewrite Hc. apply proxied_frame.
    - unfold Gateway.get_run. rewrite Hc. apply proxied_frame.
    - revert Hcancel. unfold Gateway.cancel_run. rewrite Hc. intros [= Hp].
      replace g1 with (Gateway.proxied g0 (Adapter.cancel_run c id)).2
        by now rewrite Hp.
      apply proxied_frame. }
  assert (Hmode : ∀ g g', step g g' -> is_Some (_run_coordinator g') ->
            is_Some (_run_coordinator g)).
  { intros g g' Hs. destruct (step_frame g g' Hs) as (-> & _). done. }
  induction 1 as [rc url token name version environ
                 | g body u1 u2 t _ IH | g id _ IH | g id t o g' _ IH Hc];
    intros Hproxy.
  - unfold Gateway.__init__. destruct rc; [done |].
    destruct (truthy url); [done |].
    now destruct (run_coordinator_url_from_env environ).
  - pose proof (step_start_run g body u1 u2 t) as Hs.
    rewrite (Hstep _ _ Hs); eauto.
  - pose proof (step_get_run g id) as Hs.
    rewrite (Hstep _ _ Hs); eauto.
  - pose proof (step_cancel_run g id t o g' Hc) as Hs.
    rewrite (Hstep _ _ Hs); eauto.
Qed.

(** X12.  Runs are never removed and never become other runs: a run
    stored under an identifier is, after any sequence of calls, still
    stored under it with the same identity, start time and data, and its
    state is the same or has gone from [running] to [canceled]. *)
Theorem runs_are_kept (self self' : RunGateway) (id : string) (run : Run) :
  reachable self ->
  steps self self' ->
  stored self id run ->
  ∃ run', stored self' id run' ∧ same_run run run' ∧
    (state run' = state run ∨ (state run = running ∧ state run' = canceled)).
Proof.
  intros Hreach Hsteps. revert run Hreach.
  induction Hsteps as [g | g1 g2 g3 Hstep _ IH]; intros run Hreach Hstored.
  { exists run. split; [done |]. split; [| now left]. now repeat split. }
  destruct Hstored as (r & Hr & Hrun).
  destruct (step_stored g1 g2 id r run Hstep (reachable_wf g1 Hreach) Hr Hrun)
    as (r2 & run2 & Hr2 & Hrun2 & Hcase).
  destruct (IH run2 (step_reachable _ _ Hstep Hreach)) as (run3 & H3 & Hsame & Hstate).
  { now exists r2. }
  exists run3. split; [done |].
  destruct Hcase as [[-> ->] | [Hrunning [time ->]]]; [done |].
  cbn in Hsame, Hstate. split; [exact Hsame |]. right. split; [done |].
  destruct Hstate as [-> | [[=] _]]. reflexivity.
Qed.

(** X13.  A run that is no longer running is frozen: whatever calls
    follow, its identifier leads to the very same object. *)
Theorem terminal_runs_are_frozen (self self' : RunGateway) (id : string)
    (r : ref) (run : Run) :
  reachable self ->
  steps self self' ->
  _runs self !! id = Some r ->
  objects self !! r = Some run ->
  state run ≠ running ->
  _runs self' !! id = Some r ∧ objects self' !! r = Some run.
Proof.
  intros Hreach Hsteps Hr Hrun Hstate. revert Hreach Hr Hrun.
  induction Hsteps as [g | g1 g2 g3 Hstep _ IH]; intros Hreach Hr Hrun; [done |].
  destruct (step_stored g1 g2 id r run Hstep (reachable_wf g1 Hreach) Hr Hrun)
    as (r2 & run2 & Hr2 & Hrun2 & [[-> ->] | [Hrunning _]]); [| done].
  apply IH; [exact (step_reachable _ _ Hstep Hreach) | done | done].
Qed.

(** X14.  Every run of the registry carries the identifier it is stored
    under, and is either running and not ended, or canceled and ended;
    the local registry never holds a run that succeeded or failed. *)
Theorem stored_runs_lifecycle (self : RunGateway) (id : string) (run : Run) :
  reachable self ->
  stored self id run ->
  run_id run = id ∧ lifecycle run.
Proof.
  intros Hreach Hstored. split.
  { destruct Hstored as (r & Hr & Hrun).
    destruct (reachable_wf self Hreach id r Hr) as (_ & run0 & Hrun0 & Hid).
    congruence. }
  revert id run Hstored.
  assert (Hstep : ∀ g g', reachable g -> step g g' ->
            (∀ id run, stored g id run -> lifecycle run) ->
            ∀ id run, stored g' id run -> lifecycle run).
  { intros g g' Hg Hs IH id run (r' & Hr' & Hrun').
    destruct (step_stored_back g g' id r' run Hs (reachable_wf g Hg) Hr' Hrun')
      as [[Hr Hrun] | [(r & run0 & time & Hr & Hrun0 & Hrunning & ->) | (_ & Hst & Hend)]].
    - apply (IH id run). now exists r'.
    - right. cbn. eauto.
    - now left. }
  induction Hreach as [rc url token name version environ
                      | g body u1 u2 t Hg IH | g id0 Hg IH | g id0 t o g' Hg IH Hc].
  - intros id run (r & Hr & _). exfalso. revert Hr.
    assert (_runs (Gateway.__init__ rc url token name version environ) = ∅) as ->.
    { unfold Gateway.__init__. destruct rc; [done |].
      destruct (truthy url); [done |].
      now destruct (run_coordinator_url_from_env environ). }
    now rewrite lookup_empty.
  - exact (Hstep _ _ Hg (step_start_run g body u1 u2 t) IH).
  - exact (Hstep _ _ Hg (step_get_run g id0) IH).
  - exact (Hstep _ _ Hg (step_cancel_run g id0 t o g' Hc) IH).
Qed.

End InvariantFacts.

Lemma mode_is_fixed_witness :
  steps (H := Demo.packages) Demo.local Scenario.canceled_once ∧
  _run_coordinator Scenario.canceled_once = _run_coordinator Demo.local ∧
  Gateway.version Scenario.canceled_once = Gateway.version Demo.local.
Proof.
  assert (Hsteps : steps (H := Demo.packages) Demo.local Scenario.canceled_once).
  { apply rtc_l with Demo.started; [apply step_start_run |].
    apply rtc_once.
    now apply (step_cancel_run Demo.started "run_1" Demo.later (Returns 1%nat)). }
  split; [exact Hsteps |].
  exact (mode_is_fixed (H := Demo.packages) Demo.local Scenario.canceled_once Hsteps).
Defined.

Lemma objects_never_change_witness :
  steps (H := Demo.packages) Demo.started Scenario.canceled_once ∧
  objects Demo.started !! 0%nat = Some Scenario.started_run ∧
  objects Scenario.canceled_once !! 0%nat = Some Scenario.started_run.
Proof.
  assert (Hsteps : steps (H := Demo.packages) Demo.started Scenario.canceled_once).
  { apply rtc_once.
    now apply (step_cancel_run Demo.started "run_1" Demo.later (Returns 1%nat)). }
  split; [exact Hsteps |]. split; [reflexivity |].
  exact (objects_never_change (H := Demo.packages) Demo.started Scenario.canceled_once
           0%nat Scenario.started_run Hsteps eq_refl).
Defined.

Lemma proxy_holds_no_runs_witness :
  let after_get := (Gateway.get_run (H := Demo.packages) Scenario.proxy "run_1").2 in
  reachable (H := Demo.packages) after_get ∧
  is_Some (_run_coordinator after_get) ∧
  _runs after_get = ∅.
Proof.
  intros after_get.
  assert (Hreach : reachable (H := Demo.packages) after_get)
    by apply reachable_get_run, reachable_init.
  assert (Hproxy : is_Some (_run_coordinator after_get))
    by (eexists; reflexivity).
  split; [exact Hreach |]. split; [exact Hproxy |].
  exact (proxy_holds_no_runs (H := Demo.packages) after_get Hreach Hproxy).
Defined.

Lemma runs_are_kept_witness :
  reachable (H := Demo.packages) Demo.started ∧
  steps (H := Demo.packages) Demo.started Scenario.canceled_once ∧
  stored Demo.started "run_1" Scenario.started_run ∧
  ∃ run', stored Scenario.canceled_once "run_1" run' ∧
    same_run Scenario.started_run run' ∧
    (state run' = state Scenario.started_run ∨
     (state Scenario.started_run = running ∧ state run' = canceled)).
Proof.
  assert (Hreach : reachable (H := Demo.packages) Demo.started)
    by apply reachable_start_run, reachable_init.
  assert (Hsteps : steps (H := Demo.packages) Demo.started Scenario.canceled_once).
  { apply rtc_once.
    now apply (step_cancel_run Demo.started "run_1" Demo.later (Returns 1%nat)). }
  assert (Hstored : stored Demo.started "run_1" Scenario.started_run)
    by (exists 0%nat; split; reflexivity).
  split; [exact Hreach |]. split; [exact Hsteps |]. split; [exact Hstored |].
  exact (runs_are_kept (H := Demo.packages) Demo.started Scenario.canceled_once
           "run_1" Scenario.started_run Hreach Hsteps Hstored).
Defined.

Lemma terminal_runs_are_frozen_witness :
  let again :=
    (Gateway.start_run (H := Demo.packages) Scenario.canceled_once Demo.body_run_1
       "02" "03" Demo.later).2 in
  reachable (H := Demo.packages) Scenario.canceled_once ∧
  steps (H := Demo.packages) Scenario.canceled_once again ∧
  _runs Scenario.canceled_once !! "run_1" = Some 1%nat ∧
  objects Scenario.canceled_once !! 1%nat = Some Scenario.canceled_run ∧
  state Scenario.canceled_run ≠ running ∧
  _runs again !! "run_1" = Some 1%nat ∧
  objects again !! 1%nat = Some Scenario.canceled_run.
Proof.
  intros again.
  assert (Hreach : reachable (H := Demo.packages) Scenario.canceled_once).
  { apply (reachable_cancel_run Demo.started "run_1" Demo.later (Returns 1%nat));
      [apply reachable_start_run, reachable_init | reflexivity]. }
  assert (Hsteps : steps (H := Demo.packages) Scenario.canceled_once again)
    by apply rtc_once, step_start_run.
  assert (Hstate : state Scenario.canceled_run ≠ running) by discriminate.
  split; [exact Hreach |]. split; [exact Hsteps |].
  split; [reflexivity |]. split; [reflexivity |]. split; [exact Hstate |].
  exact (terminal_runs_are_frozen (H := Demo.packages) Scenario.canceled_once again
           "run_1" 1%nat Scenario.canceled_run Hreach Hsteps eq_refl eq_refl Hstate).
Defined.

Lemma stored_runs_lifecycle_witness :
  reachable (H := Demo.packages) Scenario.canceled_once ∧
  stored Scenario.canceled_once "run_1" Scenario.canceled_run ∧
  run_id Scenario.canceled_run = "run_1" ∧
  lifecycle Scenario.canceled_run.
Proof.
  assert (Hreach : reachable (H := Demo.packages) Scenario.canceled_once).
  { apply (reachable_cancel_run Demo.started "run_1" Demo.later (Returns 1%nat));
      [apply reachable_start_run, reachable_init | reflexivity]. }
  assert (Hstored : stored Scenario.canceled_once "run_1" Scenario.canceled_run)
    by (exists 1%nat; split; reflexivity).
  split; [exact Hreach |]. split; [exact Hstored |].
  exact (stored_runs_lifecycle (H := Demo.packages) Scenario.canceled_once "run_1"
           Scenario.canceled_run Hreach Hstored).
Defined.

(** ** How the calls compose *)
Section CompositionFacts.
Context `{Packages}.

Lemma call_raises_standard {Q T : Type} (self : RunCoordinatorGatewayClient)
    (fn : Q -> outcome T) (request : Q) (exc : Exception) :
  Adapter._call self fn request = Raises exc -> ∃ err, exc = ServerError err.
Proof.
  unfold Adapter._call. destruct (fn request) as [v | [e | e | text]];
    [discriminate | | |]; intros [= <-]; eauto.
Qed.

Lemma proxied_raises (self self' : RunGateway) (result : outcome Run)
    (exc : Exception) :
  Gateway.proxied self result = (Raises exc, self') ->
  result = Raises exc ∧ self' = self.
Proof. destruct result as [run | e]; cbn; [discriminate | now intros [= -> ->]]. Qed.

(** X15.  Once [cancel_run] has returned a run, the run is settled:
    it is no longer running, [get_run] returns that very run, and so does
    every further [cancel_run], all of them leaving the gateway as it is. *)
Theorem cancel_run_settles (self self' : RunGateway) (id : string)
    (time : datetime) (r : ref) :
  reachable self ->
  _run_coordinator self = None ->
  Gateway.cancel_run self id time = Some (Returns r, self') ->
  (∃ run, objects self' !! r = Some run ∧ run_id run = id ∧ state run ≠ running) ∧
  Gateway.get_run self' id = (Returns r, self') ∧
  ∀ time', Gateway.cancel_run self' id time' = Some (Returns r, self').
Proof.
  intros Hreach Hlocal Hcancel.
  assert (Hwf' : wf self')
    by exact (wf_cancel_run _ _ _ _ _ (reachable_wf _ Hreach) Hcancel).
  assert (Hlocal' : _run_coordinator self' = None).
  { destruct (step_frame _ _ (step_cancel_run _ _ _ _ _ Hcancel)) as (-> & _). done. }
  assert (Hr' : _runs self' !! id = Some r ∧
                ∃ run, objects self' !! r = Some run ∧ state run ≠ running).
  { revert Hcancel. unfold Gateway.cancel_run, Gateway._get_local_run.
    rewrite Hlocal. destruct (_runs self !! id) as [r0 |] eqn:Hr0; [| discriminate].
    destruct (objects self !! r0) as [run0 |] eqn:Hrun0; [| discriminate].
    case_bool_decide as Hterminal.
    - intros [= <- <-]. split; [done |]. exists run0. split; [done |].
      intros Hrunning. rewrite Hrunning in Hterminal.
      revert Hterminal. rewrite !elem_of_cons, elem_of_nil.
      intros [? | [? | [? | []]]]; discriminate.
    - cbn. intros [= <- <-]. cbn.
      destruct (reachable_wf _ Hreach id r0 Hr0) as (_ & run1 & Hrun1 & Hid).
      assert (run1 = run0) as -> by congruence.
      rewrite Hid, lookup_insert_eq. split; [done |].
      exists (Gateway.model_copy run0 canceled time). split; [| discriminate].
      rewrite lookup_app_r by lia. now rewrite Nat.sub_diag. }
  destruct Hr' as (Hr' & run & Hrun & Hstate).
  split.
  { exists run. split; [done |]. split; [| done].
    destruct (Hwf' id r Hr') as (_ & run1 & Hrun1 & Hid). congruence. }
  split.
  - unfold Gateway.get_run, Gateway._get_local_run. now rewrite Hlocal', Hr'.
  - intros time'. unfold Gateway.cancel_run, Gateway._get_local_run.
    rewrite Hlocal', Hr', Hrun. rewrite bool_decide_eq_true_2; [done |].
    destruct (state run); [done | | |]; rewrite !elem_of_cons; auto.
Qed.

(** X16.  A call touches one identifier only: [start_run] and
    [cancel_run] leave the registry as it is under every other identifier,
    and [get_run] leaves it as it is altogether. *)
Theorem other_runs_untouched (self : RunGateway) (other : string) :
  reachable self ->
  (∀ body uuid_run uuid_node time,
     other ≠ str_or (req_run_id body) ("run_" +:+ uuid_run) ->
     _runs (Gateway.start_run self body uuid_run uuid_node time).2 !! other
       = _runs self !! other) ∧
  (∀ id time result self',
     Gateway.cancel_run self id time = Some (result, self') ->
     other ≠ id ->
     _runs self' !! other = _runs self !! other) ∧
  (∀ id, _runs (Gateway.get_run self id).2 = _runs self).
Proof.
  intros Hreach. split; [| split].
  - intros body u1 u2 t Hother. unfold Gateway.start_run.
    destruct (_run_coordinator self) as [c |].
    { now destruct (proxied_frame self (Adapter.start_run c body)) as (-> & _). }
    case_decide; [done |]. cbn. now rewrite lookup_insert_ne.
  - intros id t result self'. unfold Gateway.cancel_run, Gateway._get_local_run.
    destruct (_run_coordinator self) as [c |].
    { intros [= Hp] _.
      replace self' with (Gateway.proxied self (Adapter.cancel_run c id)).2
        by now rewrite Hp.
      now destruct (proxied_frame self (Adapter.cancel_run c id)) as (-> & _). }
    destruct (_runs self !! id) as [r |] eqn:Hr; [| now intros [= _ <-]].
    destruct (objects self !! r) as [run |] eqn:Hrun; [| discriminate].
    case_bool_decide; [now intros [= _ <-] |].
    cbn. intros [= _ <-] Hother. cbn.
    destruct (reachable_wf _ Hreach id r Hr) as (_ & run1 & Hrun1 & Hid).
    assert (run1 = run) as -> by congruence.
    rewrite Hid. now rewrite lookup_insert_ne.
  - intros id. unfold Gateway.get_run.
    destruct (_run_coordinator self) as [c |]; [| done].
    now destruct (proxied_frame self (Adapter.get_run c id)) as (-> & _).
Qed.

(** X17.  Requests that name no run get run identifiers from
    [uuid4]: after one such [start_run] has returned, a second one
    returns a different run under a different identifier when [uuid4]
    yields another value, and raises [run_already_exists] when it yields
    the same value again. *)
Theorem start_run_synthesized (self self1 : RunGateway)
    (body body' : RunStartRequest) (uuid uuid_node uuid_node' : string)
    (time time' : datetime) (r : ref) :
  _run_coordinator self = None ->
  req_run_id body = None ∨ req_run_id body = Some EmptyString ->
  req_run_id body' = None ∨ req_run_id body' = Some EmptyString ->
  Gateway.start_run self body uuid uuid_node time = (Returns r, self1) ->
  Gateway.start_run self1 body' uuid uuid_node' time'
    = (Raises (run_already_exists ("run_" +:+ uuid)), self1) ∧
  ∀ uuid', uuid' ≠ uuid ->
    _runs self !! ("run_" +:+ uuid') = None ->
    ∃ r' self2 run run',
      Gateway.start_run self1 body' uuid' uuid_node' time' = (Returns r', self2) ∧
      r' ≠ r ∧
      objects self2 !! r = Some run ∧ objects self2 !! r' = Some run' ∧
      run_id run = "run_" +:+ uuid ∧ run_id run' = "run_" +:+ uuid'.
Proof.
  intros Hlocal Hbody Hbody'.
  assert (Hid : ∀ u, str_or (req_run_id body) ("run_" +:+ u) = "run_" +:+ u)
    by (intros u; now destruct Hbody as [-> | ->]).
  assert (Hid' : ∀ u, str_or (req_run_id body') ("run_" +:+ u) = "run_" +:+ u)
    by (intros u; now destruct Hbody' as [-> | ->]).
  unfold Gateway.start_run at 1. rewrite Hlocal, Hid.
  case_decide as Hin; [discriminate |]. cbn. intros [= <- <-].
  split.
  - unfold Gateway.start_run. cbn. rewrite Hlocal, Hid'.
    rewrite decide_True; [done |]. rewrite lookup_insert_eq. eauto.
  - intros uuid' Hne Hfree. unfold Gateway.start_run. cbn. rewrite Hlocal, Hid'.
    rewrite decide_False.
    2: { rewrite lookup_insert_ne, Hfree; [now intros [? [=]] |].
         intros [= Heq]. now apply Hne. }
    cbn. eexists _, _, _, _. split; [reflexivity |]. cbn.
    rewrite List.length_app. cbn. split; [lia |].
    split.
    { rewrite <- List.app_assoc. rewrite lookup_app_r by lia.
      rewrite Nat.sub_diag. reflexivity. }
    split.
    { rewrite lookup_app_r by (rewrite List.length_app; cbn; lia).
      rewrite List.length_app. cbn.
      replace (length (objects self) + 1 - (length (objects self) + 1))%nat
        with 0%nat by lia.
      reflexivity. }
    split; reflexivity.
Qed.

(** X18.  An instance of [Exception] never leaves a call of the gateway
    unmapped: in either mode, every such instance that [start_run],
    [get_run], [cancel_run] or [stream_run_events] raises is the standard
    error.  (The handlers catch [Exception]; what is a [BaseException]
    only is not their matter, nor that of this statement.) *)
Theorem errors_are_standard (self : RunGateway) (exc : Exception) :
  (∀ body uuid_run uuid_node time,
     raised (Gateway.start_run self body uuid_run uuid_node time).1 = Some exc ->
     ∃ err, exc = ServerError err) ∧
  (∀ id, raised (Gateway.get_run self id).1 = Some exc ->
     ∃ err, exc = ServerError err) ∧
  (∀ id time result self',
     Gateway.cancel_run self id time = Some (result, self') ->
     raised result = Some exc ->
     ∃ err, exc = ServerError err) ∧
  (∀ id time, raised (Gateway.stream_run_events self id time) = Some exc ->
     ∃ err, exc = ServerError err).
Proof.
  assert (Hproxied : ∀ c (fn : RunCoordinatorClient -> string -> outcome Run) id,
            raised (Gateway.proxied self (Adapter._call c (fn (_client c)) id)).1
              = Some exc -> ∃ err, exc = ServerError err).
  { intros c fn id. destruct (Adapter._call c (fn (_client c)) id) eqn:Hcall;
      cbn; [discriminate |].
    intros [= <-]. exact (call_raises_standard _ _ _ _ Hcall). }
  split; [| split; [| split]].
  - intros body u1 u2 t. unfold Gateway.start_run.
    destruct (_run_coordinator self) as [c |].
    { unfold Adapter.start_run.
      destruct (Adapter._call c (client_start_run (_client c)) body) eqn:Hcall;
        cbn; [discriminate |].
      intros [= <-]. exact (call_raises_standard _ _ _ _ Hcall). }
    case_decide; cbn; [| discriminate]. intros [= <-]. eauto.
  - intros id. unfold Gateway.get_run, Gateway._get_local_run.
    destruct (_run_coordinator self) as [c |].
    { apply (Hproxied c client_get_run). }
    cbn. destruct (_runs self !! id); cbn; [discriminate |]. intros [= <-]. eauto.
  - intros id t result self'. unfold Gateway.cancel_run, Gateway._get_local_run.
    destruct (_run_coordinator self) as [c |].
    { intros [= Hp] Hraised. apply (Hproxied c client_cancel_run id).
      unfold Adapter.cancel_run in Hp. now rewrite Hp. }
    destruct (_runs self !! id) as [r |].
    2: { intros [= <- _]. cbn. intros [= <-]. eauto. }
    destruct (objects self !! r); [| discriminate].
    case_bool_decide; cbn; intros [= <- _]; discriminate.
  - intros id t. unfold Gateway.stream_run_events.
    destruct (_run_coordinator self) as [c |]; [| discriminate].
    unfold Adapter.stream_run_events.
    destruct (Adapter._call c (client_stream_run_events (_client c)) id) eqn:Hcall;
      cbn; [discriminate |].
    intros [= <-]. exact (call_raises_standard _ _ _ _ Hcall).
Qed.

End CompositionFacts.

(** ** Through the coordinator *)
Section ProxyFacts.
Context `{Packages}.

(** X19.  A report [health] returns carries the time [now()] gave; it
    says [ok] without coordinator; it says [down] only when the
    coordinator itself reports [down]; and with a coordinator its first
    check is always the one named [run_coordinator]. *)
Theorem health_report_shape (self : RunGateway) (time : datetime)
    (report : Health) :
  Gateway.health self time = Returns report ->
  health_time report = time ∧
  (_run_coordinator self = None -> health_status report = ok) ∧
  (health_status report = down ->
     ∃ coordinator downstream,
       _run_coordinator self = Some coordinator ∧
       Adapter.health coordinator = Returns downstream ∧
       health_status downstream = down) ∧
  (is_Some (_run_coordinator self) ->
     ∃ first more, health_checks report = Some (first :: more) ∧
       check_name first = "run_coordinator").
Proof.
  unfold Gateway.health. destruct (_run_coordinator self) as [c |].
  - destruct (Adapter.health c) as [downstream | exc] eqn:Hhealth.
    + intros [= <-]. cbn. split; [done |]. split; [discriminate |].
      split; [eauto |].
      intros _. destruct (health_checks downstream) as [[| x more] |];
        eexists _, _; split; reflexivity.
    + intros [= <-]. cbn. split; [done |]. split; [discriminate |].
      split; [discriminate |]. intros _. eexists _, _; split; reflexivity.
  - intros [= <-]. cbn. split; [done |]. split; [done |].
    split; [discriminate |]. now intros [? [=]].
Qed.



(** X22.  The line of the local event stream tells the run: when the
    calls for two identifiers, in neither of which a low surrogate
    follows a high one, return the same line, the identifiers are the
    same, and so are the ISO texts of the two times. *)
Theorem stream_line_tells_run (self : RunGateway) (cps cps' : list N)
    (time time' : datetime) :
  _run_coordinator self = None ->
  Unicode.is_str cps = true -> Unicode.unpaired cps = true ->
  Unicode.is_str cps' = true -> Unicode.unpaired cps' = true ->
  Gateway.stream_run_events self (Unicode.utf8 cps) time
    = Gateway.stream_run_events self (Unicode.utf8 cps') time' ->
  Unicode.utf8 cps = Unicode.utf8 cps' ∧ isoformat time = isoformat time'.
Proof.
  intros Hlocal Hstr Hpair Hstr' Hpair'.
  unfold Gateway.stream_run_events. rewrite Hlocal. unfold Gateway.payload.
  pose proof (isoformat_one_line time) as Htime.
  pose proof (isoformat_one_line time') as Htime'.
  revert Htime Htime'. generalize (isoformat time) (isoformat time').
  assert (Hid : is_text (Unicode.utf8 cps)) by now exists cps.
  assert (Hid' : is_text (Unicode.utf8 cps')) by now exists cps'.
  revert Hid Hid'. generalize (Unicode.utf8 cps) (Unicode.utf8 cps').
  intros id id' Hid Hid' stamp stamp' Hstamp Hstamp' Hline.
  apply (f_equal (λ o, match o with
                       | Returns line => Json.loads line
                       | Raises _ => None
                       end)) in Hline.
  rewrite !loads_event in Hline;
    try (apply one_line_is_text; first [assumption | reflexivity]); try assumption.
  now injection Hline as -> ->.
Qed.

End ProxyFacts.

Lemma cancel_run_settles_witness :
  reachable (H := Demo.packages) Demo.started ∧
  _run_coordinator Demo.started = None ∧
  Gateway.cancel_run (H := Demo.packages) Demo.started "run_1" Demo.later
    = Some (Returns 1%nat, Scenario.canceled_once) ∧
  (∃ run, objects Scenario.canceled_once !! 1%nat = Some run ∧
     run_id run = "run_1" ∧ state run ≠ running) ∧
  Gateway.get_run (H := Demo.packages) Scenario.canceled_once "run_1"
    = (Returns 1%nat, Scenario.canceled_once) ∧
  ∀ time', Gateway.cancel_run (H := Demo.packages) Scenario.canceled_once "run_1" time'
    = Some (Returns 1%nat, Scenario.canceled_once).
Proof.
  assert (Hreach : reachable (H := Demo.packages) Demo.started)
    by apply reachable_start_run, reachable_init.
  split; [exact Hreach |]. split; [reflexivity |]. split; [reflexivity |].
  exact (cancel_run_settles (H := Demo.packages) Demo.started Scenario.canceled_once
           "run_1" Demo.later 1%nat Hreach eq_refl eq_refl).
Defined.

Lemma other_runs_untouched_witness :
  reachable (H := Demo.packages) Demo.started ∧
  (∀ body uuid_run uuid_node time,
     "run_1" ≠ str_or (req_run_id body) ("run_" +:+ uuid_run) ->
     _runs (Gateway.start_run (H := Demo.packages) Demo.started body
              uuid_run uuid_node time).2 !! "run_1"
       = _runs Demo.started !! "run_1") ∧
  (∀ id time result self',
     Gateway.cancel_run (H := Demo.packages) Demo.started id time = Some (result, self') ->
     "run_1" ≠ id ->
     _runs self' !! "run_1" = _runs Demo.started !! "run_1") ∧
  (∀ id, _runs (Gateway.get_run (H := Demo.packages) Demo.started id).2
           = _runs Demo.started).
Proof.
  assert (Hreach : reachable (H := Demo.packages) Demo.started)
    by apply reachable_start_run, reachable_init.
  split; [exact Hreach |].
  exact (other_runs_untouched (H := Demo.packages) Demo.started "run_1" Hreach).
Defined.

Lemma start_run_synthesized_witness :
  let first :=
    Gateway.start_run (H := Demo.packages) Demo.local Scenario.body_anonymous
      "0a" "0b" Demo.noon in
  _run_coordinator Demo.local = None ∧
  (req_run_id Scenario.body_anonymous = None ∨
   req_run_id Scenario.body_anonymous = Some EmptyString) ∧
  first = (Returns 0%nat, first.2) ∧
  Gateway.start_run (H := Demo.packages) first.2 Scenario.body_anonymous
    "0a" "0c" Demo.later
    = (Raises (run_already_exists ("run_" +:+ "0a")), first.2) ∧
  ∀ uuid', uuid' ≠ "0a" ->
    _runs Demo.local !! ("run_" +:+ uuid') = None ->
    ∃ r' self2 run run',
      Gateway.start_run (H := Demo.packages) first.2 Scenario.body_anonymous
        uuid' "0c" Demo.later = (Returns r', self2) ∧
      r' ≠ 0%nat ∧
      objects self2 !! 0%nat = Some run ∧ objects self2 !! r' = Some run' ∧
      run_id run = "run_" +:+ "0a" ∧ run_id run' = "run_" +:+ uuid'.
Proof.
  intros first.
  split; [reflexivity |]. split; [now left |]. split; [reflexivity |].
  exact (start_run_synthesized (H := Demo.packages) Demo.local first.2
           Scenario.body_anonymous Scenario.body_anonymous "0a" "0b" "0c"
           Demo.noon Demo.later 0%nat eq_refl (or_introl eq_refl) (or_introl eq_refl)
           eq_refl).
Defined.



Lemma stream_line_tells_run_witness :
  _run_coordinator Demo.local = None ∧
  Unicode.is_str Scenario.euro_smile = true ∧
  Unicode.unpaired Scenario.euro_smile = true ∧
  Gateway.stream_run_events (H := Demo.packages) Demo.local
    (Unicode.utf8 Scenario.euro_smile) Demo.later
    = Gateway.stream_run_events (H := Demo.packages) Demo.local
        (Unicode.utf8 Scenario.euro_smile) Demo.later ∧
  Unicode.utf8 Scenario.euro_smile = Unicode.utf8 Scenario.euro_smile ∧
  isoformat Demo.later = isoformat Demo.later.
Proof.
  split; [reflexivity |]. split; [reflexivity |]. split; [reflexivity |].
  split; [reflexivity |].
  exact (stream_line_tells_run (H := Demo.packages) Demo.local
           Scenario.euro_smile Scenario.euro_smile Demo.later Demo.later
           eq_refl eq_refl eq_refl eq_refl eq_refl eq_refl).
Defined.

Lemma health_report_shape_witness :
  let report :=
    {| health_status := degraded; health_time := Demo.noon;
       health_checks := Some [
         {| check_name := "run_coordinator"; check_status := down;
            check_message := Some "Run Coordinator request failed";
            check_details := Some [("url", DString "http://coordinator.test")] |}] |} in
  Gateway.health (H := Demo.packages) Scenario.proxy Demo.noon = Returns report ∧
  health_time report = Demo.noon ∧
  (_run_coordinator Scenario.proxy = None -> health_status report = ok) ∧
  (health_status report = down ->
     ∃ coordinator downstream,
       _run_coordinator Scenario.proxy = Some coordinator ∧
       Adapter.health (H := Demo.packages) coordinator = Returns downstream ∧
       health_status downstream = down) ∧
  (is_Some (_run_coordinator Scenario.proxy) ->
     ∃ first more, health_checks report = Some (first :: more) ∧
       check_name first = "run_coordinator").
Proof.
  intros report. split; [reflexivity |].
  exact (health_report_shape (H := Demo.packages) Scenario.proxy Demo.noon report
           eq_refl).
Defined.
